(** * cutout: shapes and transformations

    A shallow embedding of [cutout/transformations.py] and
    [cutout/shapes.py].

    Numbers.  The Python code computes with IEEE doubles (through [math] and
    [numpy]).  Coordinates are modelled over the real numbers, every
    arithmetic operation being the exact one on [R].  The one place where
    rounding decides a discrete outcome, the length of [np.arange], is
    modelled a second time in binary64 arithmetic (module [binary64]).

    Drawing surface.  A [cairo.Context] is an external object; a shape only
    ever calls methods on it.  It is modelled as a recording surface: a
    drawing computation returns the list of method calls it issued, in
    order, together with its outcome (a value, or the exception raised).
    The calls issued before an exception stay recorded. *)

From Stdlib Require Import Reals Lra Lia List String Ascii Bool ZArith.
From Stdlib Require PrimFloat FloatOps SpecFloat Uint63.
Import ListNotations.
Open Scope string_scope.
Open Scope list_scope.
Open Scope R_scope.

(* ====================================================================== *)
(** * Python values the library manipulates *)

(** An [(x, y)] pair: a tuple, a two-element list or a NumPy vector of
    shape [(2,)]. *)
Definition point : Type := (R * R)%type.

(** Elementwise NumPy arithmetic on vectors of shape [(2,)]. *)
Definition vadd (p q : point) : point := (fst p + fst q, snd p + snd q).
Definition vsub (p q : point) : point := (fst p - fst q, snd p - snd q).
Definition vscale (k : R) (p : point) : point := (k * fst p, k * snd p).
Definition vscale_r (p : point) (k : R) : point := (fst p * k, snd p * k).
Definition vdiv (p : point) (k : R) : point := (fst p / k, snd p / k).

(** The exceptions that the modelled code can raise. *)
Inductive exn : Type :=
| ValueError (msg : string)
| IndexError
| ZeroDivisionError
| TypeError
| KeyError (key : string).

(** Outcome of a fallible pure computation. *)
Inductive result (A : Type) : Type :=
| Ok (a : A)
| Raise (e : exn).
Arguments Ok {A} a.
Arguments Raise {A} e.

Definition rbind {A B} (r : result A) (f : A -> result B) : result B :=
  match r with
  | Ok a => f a
  | Raise e => Raise e
  end.

(* ====================================================================== *)
(** * transformations.py *)

Module transformations.

(** A NumPy 2-D array, as the list of its rows. *)
Definition matrix : Type := list (list R).

(** [matrix[i][j]] *)
Definition at_ (m : matrix) (i j : nat) : R := nth j (nth i m []) 0.

Definition rotation_matrix (rotation_angle : R) : matrix :=
  [ [cos rotation_angle; - sin rotation_angle; 0];
    [sin rotation_angle; cos rotation_angle; 0];
    [0; 0; 1] ].

Definition translation_matrix (x_t y_t : R) : matrix :=
  [ [1; 0; x_t];
    [0; 1; y_t];
    [0; 0; 1] ].

Definition scale_matrix (scale_x scale_y : R) : matrix :=
  [ [scale_x; 0; 0];
    [0; scale_y; 0];
    [0; 0; 1] ].

(** The [@] operator on 2-D arrays: row-by-column products. *)
Fixpoint dot (u v : list R) : R :=
  match u, v with
  | x :: u', y :: v' => x * y + dot u' v'
  | _, _ => 0
  end.

Definition column (m : matrix) (j : nat) : list R :=
  map (fun row => nth j row 0) m.

Definition matmul (a b : matrix) : matrix :=
  map (fun row => map (fun j => dot row (column b j))
                      (seq 0 (List.length (nth 0 b []))))
      a.

(** [cairo.Matrix(xx, yx, xy, yy, x0, y0)] *)
Record cairo_Matrix : Type := Matrix
  { xx : R; yx : R; xy : R; yy : R; x0 : R; y0 : R }.

(** [cairo.Matrix.transform_point], as cairo documents it:
    [x_new = xx * x + xy * y + x0] and [y_new = yx * x + yy * y + y0]. *)
Definition transform_point (m : cairo_Matrix) (p : point) : point :=
  (xx m * fst p + xy m * snd p + x0 m,
   yx m * fst p + yy m * snd p + y0 m).

Definition cairo_matrix (m : matrix) : cairo_Matrix :=
  Matrix (at_ m 0 0) (at_ m 1 0) (at_ m 0 1) (at_ m 1 1) (at_ m 0 2) (at_ m 1 2).

Definition rotate_around_point (rotation_angle : R) (pivot_point : point)
  : cairo_Matrix :=
  let rot_matrix := rotation_matrix rotation_angle in
  let trans_matrix_0 :=
    translation_matrix (- fst pivot_point) (- snd pivot_point) in
  let trans_matrix_1 :=
    translation_matrix (fst pivot_point) (snd pivot_point) in
  cairo_matrix (matmul (matmul trans_matrix_1 rot_matrix) trans_matrix_0).

(** The three affine maps the construction composes. *)
Definition Translate (d : point) (q : point) : point := vadd q d.

Definition Rotate (theta : R) (q : point) : point :=
  (cos theta * fst q - sin theta * snd q,
   sin theta * fst q + cos theta * snd q).

End transformations.

(* ====================================================================== *)
(** * The recording surface *)

(** [cairo.LINE_CAP_*] and [cairo.LINE_JOIN_*] *)
Inductive LINE_CAP : Type := LINE_CAP_SQUARE | LINE_CAP_ROUND | LINE_CAP_BUTT.
Inductive LINE_JOIN : Type := LINE_JOIN_BEVEL | LINE_JOIN_ROUND | LINE_JOIN_MITER.

(** The [cairo.Context] methods that shapes.py calls. *)
Inductive call : Type :=
| save
| restore
| transform (m : transformations.cairo_Matrix)
| arc (xc yc radius angle1 angle2 : R)
| rectangle (x y width height : R)
| move_to (x y : R)
| line_to (x y : R)
| close_path
| set_source_rgba (r g b a : R)
| fill_preserve
| set_line_width (w : R)
| set_dash (dashes : list R)
| set_line_cap (c : LINE_CAP)
| set_line_join (j : LINE_JOIN)
| stroke.

(** A drawing computation: the calls recorded on the surface, then how the
    computation ended. *)
Definition M (A : Type) : Type := (list call * result A)%type.

Definition ret {A} (a : A) : M A := ([], Ok a).

Definition bind {A B} (m : M A) (f : A -> M B) : M B :=
  match m with
  | (t, Ok a) => let (t', r) := f a in (t ++ t', r)
  | (t, Raise e) => (t, Raise e)
  end.

(** One method call on the surface. *)
Definition emit (c : call) : M unit := ([c], Ok tt).

(** [raise e] *)
Definition raise {A} (e : exn) : M A := ([], Raise e).

(** A pure fallible computation run inside a drawing computation. *)
Definition lift {A} (r : result A) : M A := ([], r).

Definition calls {A} (m : M A) : list call := fst m.
Definition outcome {A} (m : M A) : result A := snd m.

Declare Scope draw_scope.
Delimit Scope draw_scope with draw.
Notation "x <- m ;; k" := (bind m (fun x => k))
  (at level 61, m at next level, right associativity) : draw_scope.
Notation "m ;; k" := (bind m (fun _ => k))
  (at level 61, right associativity) : draw_scope.
Open Scope draw_scope.

(** [for x in xs: body(x)] *)
Fixpoint for_each {A} (xs : list A) (body : A -> M unit) : M unit :=
  match xs with
  | [] => ret tt
  | x :: xs' => body x ;; for_each xs' body
  end.

(** Classification of the surface calls. *)
Definition is_paint (c : call) : bool :=
  match c with
  | set_source_rgba _ _ _ _ | fill_preserve | set_line_width _ | set_dash _
  | set_line_cap _ | set_line_join _ | stroke => true
  | _ => false
  end.

Definition is_path (c : call) : bool :=
  match c with
  | arc _ _ _ _ _ | rectangle _ _ _ _ | move_to _ _ | line_to _ _
  | close_path => true
  | _ => false
  end.

Definition is_save (c : call) : bool :=
  match c with save => true | _ => false end.

Definition is_restore (c : call) : bool :=
  match c with restore => true | _ => false end.

(** The depth of cairo's stack of saved states after a sequence of calls,
    starting from depth [d]; [None] when a [restore] finds nothing saved. *)
Fixpoint stack_depth (d : nat) (t : list call) : option nat :=
  match t with
  | [] => Some d
  | save :: t' => stack_depth (S d) t'
  | restore :: t' =>
      match d with
      | O => None
      | S d' => stack_depth d' t'
      end
  | _ :: t' => stack_depth d t'
  end.

(** Every [save] is matched by a later [restore]. *)
Definition balanced (t : list call) : Prop := stack_depth 0 t = Some 0%nat.

(* ====================================================================== *)
(** * Python and NumPy helpers *)

(** [repr] of a list of strings, as an f-string interpolates it:
    [['a', 'b']]. *)
Fixpoint repr_items (l : list string) : string :=
  match l with
  | [] => ""
  | [s] => "'" ++ s ++ "'"
  | s :: l' => "'" ++ s ++ "', " ++ repr_items l'
  end.

Definition repr_list (l : list string) : string := "[" ++ repr_items l ++ "]".

(** A [dict] with string keys, in insertion order. *)
Definition dict (V : Type) : Type := list (string * V).

Definition keys {V} (d : dict V) : list string := map fst d.

(** [k in l] *)
Definition str_in (k : string) (l : list string) : bool :=
  existsb (String.eqb k) l.

(** [d[k]] *)
Fixpoint getitem {V} (d : dict V) (k : string) : result V :=
  match d with
  | [] => Raise (KeyError k)
  | (k', v) :: d' => if String.eqb k k' then Ok v else getitem d' k
  end.

(** Division of Python floats. *)
Definition pydiv (a b : R) : result R :=
  if Req_dec_T b 0 then Raise ZeroDivisionError else Ok (a / b).

(** [math.radians] *)
Definition radians (deg : R) : R := deg * (PI / 180).

(** Ceiling of a real number. *)
Definition ceil (x : R) : Z := (1 - up (- x))%Z.

(** The values of an [np.arange] of [len] elements: the [i]-th is
    [start + i * step]. *)
Definition arange_values (start step : R) (len : nat) : list R :=
  map (fun i => start + INR i * step) (seq 0 len).

(** [np.arange(start, stop, step)] for a nonzero [step]:
    [ceil((stop - start) / step)] values (none when that is negative). *)
Definition np_arange (start stop step : R) : list R :=
  arange_values start step (Z.to_nat (ceil ((stop - start) / step))).

(** [np.max] and [np.min] of a 1-D array; NumPy raises [ValueError] on a
    zero-size array. *)
Definition np_max (l : list R) : result R :=
  match l with
  | [] => Raise (ValueError "zero-size array to reduction operation maximum which has no identity")
  | x :: l' => Ok (fold_left Rmax l' x)
  end.

Definition np_min (l : list R) : result R :=
  match l with
  | [] => Raise (ValueError "zero-size array to reduction operation minimum which has no identity")
  | x :: l' => Ok (fold_left Rmin l' x)
  end.

(** [points[:, j]] for [points = np.array(list_of_pairs)].  An empty list
    gives an array of shape [(0,)], which has no second axis to index. *)
Definition column_x (points : list point) : result (list R) :=
  match points with
  | [] => Raise IndexError
  | _ => Ok (map fst points)
  end.

Definition column_y (points : list point) : result (list R) :=
  match points with
  | [] => Raise IndexError
  | _ => Ok (map snd points)
  end.

(** [a[i]] on a list or on the rows of an array. *)
Definition index {A} (a : list A) (i : nat) : result A :=
  match nth_error a i with
  | Some x => Ok x
  | None => Raise IndexError
  end.

(** [a[mask]] for a list of booleans [mask]: the rows where the mask is
    true; the mask must be as long as the array. *)
Definition np_mask {A} (a : list A) (mask : list bool) : result (list A) :=
  if Nat.eqb (List.length a) (List.length mask)
  then Ok (map fst (filter snd (combine a mask)))
  else Raise IndexError.

(* ====================================================================== *)
(** * shapes.py: constants *)

Definition LINE_STYLES : dict (list R) :=
  [ ("--", [4; 1]); ("-", []); (".", [0; 2]); ("-.", [0; 2; 4; 2]) ].

Definition LINE_CAPS : dict LINE_CAP :=
  [ ("square", LINE_CAP_SQUARE); ("round", LINE_CAP_ROUND);
    ("butt", LINE_CAP_BUTT) ].

Definition LINE_JOINS : dict LINE_JOIN :=
  [ ("bevel", LINE_JOIN_BEVEL); ("round", LINE_JOIN_ROUND);
    ("mitter", LINE_JOIN_MITER) ].

(* ====================================================================== *)
(** * shapes.py: the attributes of each class *)

(** A colour argument is a colour name, or [None]. *)
Definition color : Type := option string.

Module Circle.
Record t : Type := mk
  { radius : R; position : point; orientation : R; line_color : color;
    line_width : R; line_style : string; fill_color : color; opacity : R }.
End Circle.

Module Rectangle.
Record t : Type := mk
  { position : point; width : R; height : R; orientation : R;
    line_color : color; line_width : R; line_style : string;
    line_cap : string; line_join : string; fill_color : color;
    opacity : R }.
End Rectangle.

Module Lines.
Record t : Type := mk
  { points : list point; orientation : R; line_color : color;
    line_style : string; line_width : R; line_cap : string;
    line_join : string; opacity : R;
    max_x : R; min_x : R; max_y : R; min_y : R; position : point }.
End Lines.

Module Polygon.
Record t : Type := mk
  { points : list point; orientation : R; fill_color : color;
    line_color : color; line_style : string; line_width : R;
    line_cap : string; line_join : string; opacity : R;
    max_x : R; min_x : R; max_y : R; min_y : R; position : point }.

(** [polygon.position = p] *)
Definition set_position (self : t) (p : point) : t :=
  mk (points self) (orientation self) (fill_color self) (line_color self)
     (line_style self) (line_width self) (line_cap self) (line_join self)
     (opacity self) (max_x self) (min_x self) (max_y self) (min_y self) p.
End Polygon.

Module RegularPolygon.
Record t : Type := mk
  { n_faces : nat; radius : R; position : point; orientation : R;
    fill_color : color; line_color : color; line_style : string;
    line_width : R; line_cap : string; line_join : string; opacity : R;
    points : list point }.
End RegularPolygon.

Module Star.
Record t : Type := mk
  { n_faces : nat; external_radius : R; internal_radius : R;
    position : point; orientation : R; fill_color : color;
    line_color : color; line_style : string; line_width : R;
    line_cap : string; line_join : string; opacity : R;
    points : list point }.
End Star.

Module Arrow.
Record t : Type := mk
  { origin : point; vector : point; length : R; head_style : string;
    head_length : R; head_width : R; min_head_length : option R;
    line_color : color; line_style : string; line_width : R; opacity : R;
    arrow_head_points : list point }.
End Arrow.

Module RoundedRectangle.
Record t : Type := mk
  { position : point; width : R; height : R; corner_radius : option R;
    orientation : R; line_color : color; line_width : R;
    line_style : string; line_cap : string; line_join : string;
    fill_color : color; opacity : R }.
End RoundedRectangle.

(* ====================================================================== *)
(** * shapes.py: constructors *)

(** The bounding box and the pivot that [Lines.__init__] and
    [Polygon.__init__] derive from the points (lines 210-214, 269-273). *)
Definition bounding_fields (points : list point)
  : result (R * R * R * R * point) :=
  rbind (column_x points) (fun xs =>
  rbind (np_max xs) (fun max_x =>
  rbind (column_x points) (fun xs' =>
  rbind (np_min xs') (fun min_x =>
  rbind (column_y points) (fun ys =>
  rbind (np_max ys) (fun max_y =>
  rbind (column_y points) (fun ys' =>
  rbind (np_min ys') (fun min_y =>
  Ok (max_x, min_x, max_y, min_y,
      ((max_x - min_x) / 2, (max_y - min_y) / 2)))))))))).

Definition Lines_init (points : list point) (orientation : R)
    (line_color : color) (line_style : string) (line_width : R)
    (line_cap line_join : string) (opacity : R) : result Lines.t :=
  rbind (bounding_fields points) (fun '(max_x, min_x, max_y, min_y, position) =>
  Ok (Lines.mk points orientation line_color line_style line_width line_cap
        line_join opacity max_x min_x max_y min_y position)).

Definition Polygon_init (points : list point) (orientation : R)
    (fill_color line_color : color) (line_style : string) (line_width : R)
    (line_cap line_join : string) (opacity : R) : result Polygon.t :=
  rbind (bounding_fields points) (fun '(max_x, min_x, max_y, min_y, position) =>
  Ok (Polygon.mk points orientation fill_color line_color line_style
        line_width line_cap line_join opacity max_x min_x max_y min_y
        position)).

(** [radius * np.cos(angles) + position[0]] zipped with the same for
    [np.sin]: the rows of [np.transpose(np.array([x, y]))]. *)
Definition on_circle (radius : R) (position : point) (angles : list R)
  : list point :=
  map (fun a => (radius * cos a + fst position,
                 radius * sin a + snd position)) angles.

Definition RegularPolygon_init (n_faces : nat) (radius : R) (position : point)
    (orientation : R) (fill_color line_color : color) (line_style : string)
    (line_width : R) (line_cap line_join : string) (opacity : R)
  : result RegularPolygon.t :=
  rbind (pydiv (2 * PI) (INR n_faces)) (fun step =>
  let angles := np_arange 0 (2 * PI) step in
  Ok (RegularPolygon.mk n_faces radius position orientation fill_color
        line_color line_style line_width line_cap line_join opacity
        (on_circle radius position angles))).

(** The loop of [Star.__init__] (lines 400-403): two appends per index
    of [external]; an index missing from [internal] is an [IndexError]. *)
Fixpoint interleave_from (i : nat) (external internal : list point)
  : result (list point) :=
  match external with
  | [] => Ok []
  | e :: external' =>
      rbind (index internal i) (fun q =>
      rbind (interleave_from (S i) external' internal) (fun rest =>
      Ok (e :: q :: rest)))
  end.

Definition Star_init (n_points : nat) (external_radius internal_radius : R)
    (position : point) (orientation : R) (fill_color line_color : color)
    (line_style : string) (line_width : R) (line_cap line_join : string)
    (opacity : R) : result Star.t :=
  rbind (pydiv (2 * PI) (INR n_points)) (fun delta_angle =>
  let external_angles := np_arange 0 (2 * PI) delta_angle in
  let ext := on_circle external_radius position external_angles in
  let internal_angles := np_arange (delta_angle / 2) (2 * PI) delta_angle in
  let int := on_circle internal_radius position internal_angles in
  rbind (interleave_from 0 ext int) (fun points =>
  Ok (Star.mk n_points external_radius internal_radius position orientation
        fill_color line_color line_style line_width line_cap line_join
        opacity points))).

(** Truth value of [min_head_length] in [if self.min_head_length:]:
    [None] and zero are false. *)
Definition truthy (x : option R) : bool :=
  match x with
  | None => false
  | Some m => if Req_dec_T m 0 then false else true
  end.

(** Lines 453-467: the head length and width after the minimum-length
    adjustment. *)
Definition adjust_head (length head_length head_width : R)
    (min_head_length : option R) : result (R * R) :=
  match min_head_length with
  | Some m =>
      if truthy min_head_length then
        if Rlt_dec length m then
          rbind (pydiv head_width head_length) (fun head_aspect =>
          Ok (1, head_aspect))
        else if Rlt_dec (head_length * length) m then
          rbind (pydiv head_width head_length) (fun head_aspect =>
          rbind (pydiv m length) (fun head_length' =>
          Ok (head_length', head_aspect * head_length')))
        else Ok (head_length, head_width)
      else Ok (head_length, head_width)
  | None => Ok (head_length, head_width)
  end.

(** [Arrow.__init__].  [normal_to_arrow] is a NumPy division: for a zero
    [vector] it produces NaNs (with a warning) instead of raising, and the
    coordinates computed from it have no counterpart over [R]. *)
Definition Arrow_init (origin vector : point) (head_style : string)
    (head_length head_width : R) (min_head_length : option R)
    (line_color : color) (line_style : string) (line_width opacity : R)
  : result Arrow.t :=
  let length := sqrt (fst vector ^ 2 + snd vector ^ 2) in
  let normal_to_arrow := vdiv (- snd vector, fst vector) length in
  rbind (adjust_head length head_length head_width min_head_length)
    (fun '(head_length, head_width) =>
  Ok (Arrow.mk origin vector length head_style head_length head_width
        min_head_length line_color line_style line_width opacity
        [ vadd origin vector;
          vadd (vadd origin (vscale (1 - head_length) vector))
               (vscale_r (vscale_r normal_to_arrow (head_width / 2)) length);
          vadd origin (vscale (1 - 8 / 10 * head_length) vector);
          vsub (vadd origin (vscale (1 - head_length) vector))
               (vscale_r (vscale_r normal_to_arrow (head_width / 2)) length)
        ])).

(* ====================================================================== *)
(** * shapes.py: the angle arrays in binary64 arithmetic *)

Module binary64.
Import SpecFloat PrimFloat.

(** [np.pi], the double nearest to pi: [3.141592653589793]. *)
Definition np_pi : float := 0x1.921fb54442d18p+1%float.

(** [float(n)] for a Python [int] (exact below [2^53]). *)
Definition of_int (n : Z) : float := PrimFloat.of_uint63 (Uint63.of_Z n).

(** [math.ceil] of a double; [None] for an infinity or a NaN. *)
Definition ceil (x : float) : option Z :=
  match FloatOps.Prim2SF x with
  | S754_zero _ => Some 0%Z
  | S754_finite s m e =>
      let a := if s then Z.neg m else Z.pos m in
      Some (if (0 <=? e)%Z then a * 2 ^ e else - ((- a) / 2 ^ (- e)))%Z
  | _ => None
  end.

(** The number of elements of [np.arange(start, stop, step)]: NumPy
    computes [ceil((stop - start) / step)] in double arithmetic. *)
Definition arange_length (start stop step : float) : option Z :=
  ceil (PrimFloat.div (PrimFloat.sub stop start) step).

Definition two_pi : float := PrimFloat.mul (of_int 2) np_pi.

(** [len(angles)] in [RegularPolygon.__init__] (line 335), and
    [len(external_angles)] in [Star.__init__] (lines 388-390). *)
Definition n_angles (n_faces : Z) : option Z :=
  arange_length (of_int 0) two_pi (PrimFloat.div two_pi (of_int n_faces)).

(** [len(internal_angles)] in [Star.__init__] (lines 388, 394). *)
Definition n_internal_angles (n_points : Z) : option Z :=
  let delta_angle := PrimFloat.div two_pi (of_int n_points) in
  arange_length (PrimFloat.div delta_angle (of_int 2)) two_pi delta_angle.

End binary64.

(* ====================================================================== *)
(** * shapes.py: painting and drawing *)

Section Drawing.

(** [colors.get_color]: the colour table lives in [cutout/colors.py]; the
    lookup is taken as given.  It returns the three components that
    [set_source_rgba] receives before the opacity, or raises. *)
Variable get_color : string -> result (R * R * R).

(** Lines 41-52: the three membership tests, in order.  [None] when all
    three pass, else the exception raised. *)
Definition style_error (line_style line_cap line_join : string) : option exn :=
  if negb (str_in line_style (keys LINE_STYLES)) then
    Some (ValueError ("Available line styles are "
                      ++ repr_list (keys LINE_STYLES)))
  else if negb (str_in line_cap (keys LINE_CAPS)) then
    Some (ValueError ("Available line caps are "
                      ++ repr_list (keys LINE_CAPS)))
  else if negb (str_in line_join (keys LINE_JOINS)) then
    Some (ValueError ("Available line joints are "
                      ++ repr_list (keys LINE_CAPS)))
  else None.

(** [surface.set_source_rgba( *colors.get_color(c), opacity)] *)
Definition set_source (c : string) (opacity : R) : M unit :=
  rgb <- lift (get_color c) ;;
  let '(r, g, b) := rgb in
  emit (set_source_rgba r g b opacity).

Definition paint_paths (fill_color line_color : color) (line_width : R)
    (line_style line_cap line_join : string) (opacity : R) : M unit :=
  match style_error line_style line_cap line_join with
  | Some e => raise e
  | None =>
      match fill_color with
      | Some c => set_source c opacity ;; emit fill_preserve
      | None => ret tt
      end ;;
      match line_color with
      | Some c =>
          set_source c opacity ;;
          emit (set_line_width line_width) ;;
          pattern <- lift (getitem LINE_STYLES line_style) ;;
          emit (set_dash (map (fun i => line_width * i) pattern)) ;;
          (if str_in line_style ["."; "-."] then
             cap <- lift (getitem LINE_CAPS "round") ;;
             emit (set_line_cap cap)
           else
             cap <- lift (getitem LINE_CAPS line_cap) ;;
             emit (set_line_cap cap)) ;;
          join <- lift (getitem LINE_JOINS line_join) ;;
          emit (set_line_join join) ;;
          emit stroke
      | None => ret tt
      end
  end.

(** [surface.save()] followed by the pivot transform, the opening of
    every bracketed [draw]. *)
Definition save_and_rotate (orientation : R) (position : point) : M unit :=
  emit save ;;
  emit (transform (transformations.rotate_around_point
                     (radians orientation) position)).

Definition Circle_draw (self : Circle.t) : M unit :=
  save_and_rotate (Circle.orientation self) (Circle.position self) ;;
  emit (arc (fst (Circle.position self)) (snd (Circle.position self))
            (Circle.radius self) 0 (2 * PI)) ;;
  paint_paths (Circle.fill_color self) (Circle.line_color self)
    (Circle.line_width self) (Circle.line_style self) "butt" "mitter"
    (Circle.opacity self) ;;
  emit restore.

Definition Rectangle_draw (self : Rectangle.t) : M unit :=
  save_and_rotate (Rectangle.orientation self) (Rectangle.position self) ;;
  let corner_x := fst (Rectangle.position self) - Rectangle.width self / 2 in
  let corner_y := snd (Rectangle.position self) - Rectangle.height self / 2 in
  emit (rectangle corner_x corner_y (Rectangle.width self)
          (Rectangle.height self)) ;;
  paint_paths (Rectangle.fill_color self) (Rectangle.line_color self)
    (Rectangle.line_width self) (Rectangle.line_style self)
    (Rectangle.line_cap self) (Rectangle.line_join self)
    (Rectangle.opacity self) ;;
  emit restore.

(** [move_to] the first point, then [line_to] the points of index
    [1 .. len(points) - 1] (lines 224-231 and 283-290). *)
Definition trace_points (points : list point) : M unit :=
  p0 <- lift (index points 0) ;;
  emit (move_to (fst p0) (snd p0)) ;;
  for_each (tl points) (fun p => emit (line_to (fst p) (snd p))).

Definition Lines_draw (self : Lines.t) : M unit :=
  save_and_rotate (Lines.orientation self) (Lines.position self) ;;
  trace_points (Lines.points self) ;;
  paint_paths None (Lines.line_color self) (Lines.line_width self)
    (Lines.line_style self) (Lines.line_cap self) (Lines.line_join self)
    (Lines.opacity self) ;;
  emit restore.

Definition Polygon_draw (self : Polygon.t) : M unit :=
  save_and_rotate (Polygon.orientation self) (Polygon.position self) ;;
  trace_points (Polygon.points self) ;;
  emit close_path ;;
  paint_paths (Polygon.fill_color self) (Polygon.line_color self)
    (Polygon.line_width self) (Polygon.line_style self)
    (Polygon.line_cap self) (Polygon.line_join self)
    (Polygon.opacity self) ;;
  emit restore.

Definition RegularPolygon_draw (self : RegularPolygon.t) : M unit :=
  polygon <- lift (Polygon_init (RegularPolygon.points self)
                     (RegularPolygon.orientation self)
                     (RegularPolygon.fill_color self)
                     (RegularPolygon.line_color self)
                     (RegularPolygon.line_style self)
                     (RegularPolygon.line_width self)
                     (RegularPolygon.line_cap self)
                     (RegularPolygon.line_join self)
                     (RegularPolygon.opacity self)) ;;
  let polygon := Polygon.set_position polygon (RegularPolygon.position self) in
  Polygon_draw polygon.

Definition Star_draw (self : Star.t) : M unit :=
  polygon <- lift (Polygon_init (Star.points self) (Star.orientation self)
                     (Star.fill_color self) (Star.line_color self)
                     (Star.line_style self) (Star.line_width self)
                     (Star.line_cap self) (Star.line_join self)
                     (Star.opacity self)) ;;
  let polygon := Polygon.set_position polygon (Star.position self) in
  Polygon_draw polygon.

(** The head of an arrow, lines 498-540.  The [Polygon] and [Lines] built
    here take the constructors' defaults for the arguments not passed:
    [orientation=0.0], [line_style="-"], [line_cap="butt"],
    [line_join="bevel"], [fill_color=None], [opacity=1.0]. *)
Definition Arrow_draw_head (self : Arrow.t) : M unit :=
  if String.eqb (Arrow.head_style self) "triangle" then
    points <- lift (np_mask (Arrow.arrow_head_points self)
                      [true; true; false; true]) ;;
    arrow_head <- lift (Polygon_init points 0 (Arrow.line_color self)
                          (Arrow.line_color self) "-" (Arrow.line_width self)
                          "butt" "bevel" (Arrow.opacity self)) ;;
    Polygon_draw arrow_head
  else if String.eqb (Arrow.head_style self) "stroke" then
    p1 <- lift (index (Arrow.arrow_head_points self) 1) ;;
    p0 <- lift (index (Arrow.arrow_head_points self) 0) ;;
    p3 <- lift (index (Arrow.arrow_head_points self) 3) ;;
    arrow_head <- lift (Lines_init [p1; p0; p3] 0 (Arrow.line_color self)
                          (Arrow.line_style self) (Arrow.line_width self)
                          "butt" "bevel" 1) ;;
    Lines_draw arrow_head
  else if String.eqb (Arrow.head_style self) "arrow" then
    arrow_head <- lift (Polygon_init (Arrow.arrow_head_points self) 0
                          (Arrow.line_color self) (Arrow.line_color self) "-"
                          (Arrow.line_width self) "butt" "bevel"
                          (Arrow.opacity self)) ;;
    Polygon_draw arrow_head
  else ret tt.

Definition Arrow_draw (self : Arrow.t) : M unit :=
  emit (move_to (fst (Arrow.origin self)) (snd (Arrow.origin self))) ;;
  (let tip := vadd (Arrow.origin self) (Arrow.vector self) in
   emit (line_to (fst tip) (snd tip))) ;;
  paint_paths None (Arrow.line_color self) (Arrow.line_width self)
    (Arrow.line_style self) "butt" "mitter" (Arrow.opacity self) ;;
  Arrow_draw_head self ;;
  paint_paths (Arrow.line_color self) None (Arrow.line_width self)
    "-" "butt" "mitter" (Arrow.opacity self).

(** [self.corner_radius] where an operand of [+] or [-] is needed: the
    default [None] is a [TypeError] there. *)
Definition number (x : option R) : result R :=
  match x with
  | Some r => Ok r
  | None => Raise TypeError
  end.

Definition RoundedRectangle_draw (self : RoundedRectangle.t) : M unit :=
  save_and_rotate (RoundedRectangle.orientation self)
    (RoundedRectangle.position self) ;;
  let p0 := RoundedRectangle.position self in
  let width := RoundedRectangle.width self in
  let height := RoundedRectangle.height self in
  corner_radius <- lift (number (RoundedRectangle.corner_radius self)) ;;
  let p1 := vadd p0 (width / 2, height / 2 - corner_radius) in
  let p3 := vadd p0 (- width / 2 + corner_radius, height / 2) in
  let p5 := vadd p0 (- width / 2, - height / 2 + corner_radius) in
  let p7 := vadd p0 (width / 2 - corner_radius, - height / 2) in
  let c1 := vadd p0 (width / 2 - corner_radius, height / 2 - corner_radius) in
  let c2 := vadd p0 (- width / 2 + corner_radius, height / 2 - corner_radius) in
  let c3 := vadd p0 (- width / 2 + corner_radius, - height / 2 + corner_radius) in
  let c4 := vadd p0 (width / 2 - corner_radius, - height / 2 + corner_radius) in
  emit (move_to (fst p1) (snd p1)) ;;
  emit (arc (fst c1) (snd c1) corner_radius 0 (PI / 2)) ;;
  emit (line_to (fst p3) (snd p3)) ;;
  emit (arc (fst c2) (snd c2) corner_radius (PI / 2) PI) ;;
  emit (line_to (fst p5) (snd p5)) ;;
  emit (arc (fst c3) (snd c3) corner_radius PI (3 * PI / 2)) ;;
  emit (line_to (fst p7) (snd p7)) ;;
  emit (arc (fst c4) (snd c4) corner_radius (3 * PI / 2) (2 * PI)) ;;
  emit close_path ;;
  paint_paths (RoundedRectangle.fill_color self)
    (RoundedRectangle.line_color self) (RoundedRectangle.line_width self)
    (RoundedRectangle.line_style self) (RoundedRectangle.line_cap self)
    (RoundedRectangle.line_join self) (RoundedRectangle.opacity self) ;;
  emit restore.

(** Any object of the eight classes, and the [draw] it answers to. *)
Inductive shape : Type :=
| a_Circle (c : Circle.t)
| a_Rectangle (r : Rectangle.t)
| a_Lines (l : Lines.t)
| a_Polygon (p : Polygon.t)
| a_RegularPolygon (p : RegularPolygon.t)
| a_Star (s : Star.t)
| an_Arrow (a : Arrow.t)
| a_RoundedRectangle (r : RoundedRectangle.t).

Definition draw (s : shape) : M unit :=
  match s with
  | a_Circle c => Circle_draw c
  | a_Rectangle r => Rectangle_draw r
  | a_Lines l => Lines_draw l
  | a_Polygon p => Polygon_draw p
  | a_RegularPolygon p => RegularPolygon_draw p
  | a_Star s => Star_draw s
  | an_Arrow a => Arrow_draw a
  | a_RoundedRectangle r => RoundedRectangle_draw r
  end.

(** The line style, cap and join that the shape's [draw] hands to its
    first [paint_paths]. *)
Definition style_of (s : shape) : string * string * string :=
  match s with
  | a_Circle c => (Circle.line_style c, "butt", "mitter")
  | a_Rectangle r =>
      (Rectangle.line_style r, Rectangle.line_cap r, Rectangle.line_join r)
  | a_Lines l => (Lines.line_style l, Lines.line_cap l, Lines.line_join l)
  | a_Polygon p =>
      (Polygon.line_style p, Polygon.line_cap p, Polygon.line_join p)
  | a_RegularPolygon p =>
      (RegularPolygon.line_style p, RegularPolygon.line_cap p,
       RegularPolygon.line_join p)
  | a_Star s => (Star.line_style s, Star.line_cap s, Star.line_join s)
  | an_Arrow a => (Arrow.line_style a, "butt", "mitter")
  | a_RoundedRectangle r =>
      (RoundedRectangle.line_style r, RoundedRectangle.line_cap r,
       RoundedRectangle.line_join r)
  end.

Definition invalid_style (s : shape) : option exn :=
  let '(line_style, line_cap, line_join) := style_of s in
  style_error line_style line_cap line_join.

End Drawing.

(* ====================================================================== *)
(** * Specification-side notions used by the theorems *)

(** [m] is the greatest (resp. least) element of [l]. *)
Definition is_max (m : R) (l : list R) : Prop :=
  In m l /\ forall y, In y l -> y <= m.

Definition is_min (m : R) (l : list R) : Prop :=
  In m l /\ forall y, In y l -> m <= y.

(** Euclidean distance between two points. *)
Definition dist (p q : point) : R :=
  sqrt ((fst p - fst q) ^ 2 + (snd p - snd q) ^ 2).

(** Three other candidate pivots of a point list. *)
Definition bbox_center (max_x min_x max_y min_y : R) : point :=
  ((max_x + min_x) / 2, (max_y + min_y) / 2).

Definition bbox_min_corner (min_x min_y : R) : point := (min_x, min_y).

Definition centroid (points : list point) : point :=
  (fold_right Rplus 0 (map fst points) / INR (List.length points),
   fold_right Rplus 0 (map snd points) / INR (List.length points)).

(** What a bounding box and pivot stored by a constructor must satisfy
    with respect to the points it was built from. *)
Definition stores_bounding_box (points : list point)
    (max_x min_x max_y min_y : R) : Prop :=
  is_max max_x (map fst points) /\ is_min min_x (map fst points) /\
  is_max max_y (map snd points) /\ is_min min_y (map snd points).

Definition half_span (max_x min_x max_y min_y : R) : point :=
  ((max_x - min_x) / 2, (max_y - min_y) / 2).

(** The point at distance [radius] from [position] in direction [angle]. *)
Definition polar (position : point) (radius angle : R) : point :=
  vadd position (vscale radius (cos angle, sin angle)).

(** A call that neither saves nor restores the surface state. *)
Definition neutral (c : call) : bool := negb (is_save c || is_restore c).

(** A drawing that saves first, never saves or restores in between, and
    restores last exactly when it returns. *)
Definition bracketed (m : M unit) : Prop :=
  match m with
  | (t, Ok _) =>
      exists body, t = save :: body ++ [restore]
                   /\ Forall (fun c => neutral c = true) body
  | (t, Raise _) =>
      exists body, t = save :: body
                   /\ Forall (fun c => neutral c = true) body
  end.

(** A drawing that raised before its first surface call. *)
Definition never_started (m : M unit) : Prop := exists e, m = ([], Raise e).

Definition is_Arrow (s : shape) : bool :=
  match s with an_Arrow _ => true | _ => false end.

(** What [draw] needs of the attributes to reach its [paint_paths]: a
    first point to move to, and a number for the corner radius. *)
Definition well_formed (s : shape) : bool :=
  match s with
  | a_Lines l => negb (Nat.eqb (List.length (Lines.points l)) 0)
  | a_Polygon p => negb (Nat.eqb (List.length (Polygon.points p)) 0)
  | a_RegularPolygon p =>
      negb (Nat.eqb (List.length (RegularPolygon.points p)) 0)
  | a_Star s => negb (Nat.eqb (List.length (Star.points s)) 0)
  | a_RoundedRectangle r =>
      match RoundedRectangle.corner_radius r with
      | Some _ => true
      | None => false
      end
  | _ => true
  end.

(** The calls that a bracketed [draw] has recorded when its
    [paint_paths] rejects the style: [save], the pivot [transform], then
    path construction only. *)
Definition only_setup (t : list call) : Prop :=
  exists m path,
    t = save :: transform m :: path
    /\ path <> []
    /\ Forall (fun c => is_path c = true) path.

(** A two-colour table standing in for [colors.get_color]. *)
Definition sample_colors (name : string) : result (R * R * R) :=
  getitem [ ("black", (0, 0, 0)); ("gold", (1, 215 / 255, 0)) ] name.

(** A colour lookup that resolves every name, to black. *)
Definition all_black (name : string) : result (R * R * R) := Ok (0, 0, 0).

(** [Circle(radius=100, position=(500, 500), orientation=55,
    line_color="black", line_style=..., fill_color="gold")] *)
Definition sample_circle (line_style : string) : Circle.t :=
  Circle.mk 100 (500, 500) 55 (Some "black") 1 line_style (Some "gold") 1.

(** [Rectangle(position=(500, 500), width=700, height=250,
    line_join=...)] *)
Definition sample_rectangle (line_join : string) : Rectangle.t :=
  Rectangle.mk (500, 500) 700 250 0 (Some "black") 1 "-" "butt" line_join
    None 1.

(** [Arrow(origin=(0, 0), vector=(3, 4), head_style="none",
    line_style=...)], as [Arrow.__init__] builds it. *)
Definition sample_arrow (line_style : string) : result Arrow.t :=
  Arrow_init (0, 0) (3, 4) "none" (1 / 10) (1 / 10) None (Some "black")
    line_style 1 1.

(* ====================================================================== *)
(** * Theorems: transformations.py *)

Section TransformFacts.
Import transformations.

Lemma rotate_around_point_coeffs theta px py :
  rotate_around_point theta (px, py)
  = Matrix (cos theta) (sin theta) (- sin theta) (cos theta)
      (- (cos theta * px) + sin theta * py + px)
      (- (sin theta * px) - cos theta * py + py).
Proof.
  unfold rotate_around_point, cairo_matrix, at_; cbn.
  f_equal; ring.
Qed.

(** C1.  For every angle [theta] and pivot [P], the transform built by
    [rotate_around_point theta P] acts on every point [Q] as
    Translate(+P) after Rotate(theta) after Translate(-P); that is, it sends
    [Q] to the rotation of [Q - P] by [theta] plus [P]; and it fixes [P]. *)
Theorem rotate_around_point_is_conjugated_rotation :
  forall (theta : R) (P Q : point),
    transform_point (rotate_around_point theta P) Q
      = Translate P (Rotate theta (Translate (vscale (-1) P) Q))
    /\ transform_point (rotate_around_point theta P) Q
      = vadd (Rotate theta (vsub Q P)) P
    /\ transform_point (rotate_around_point theta P) P = P.
Proof.
  intros theta [px py] [qx qy].
  rewrite rotate_around_point_coeffs.
  unfold transform_point, Translate, Rotate, vadd, vsub, vscale; cbn.
  repeat split; f_equal; ring.
Qed.

End TransformFacts.

(* ====================================================================== *)
(** * Theorems: bounding box and pivot of Lines and Polygon *)

Lemma fold_left_Rmax_spec (l : list R) (x : R) :
  is_max (fold_left Rmax l x) (x :: l).
Proof.
  revert x; induction l as [|y l IH]; intros x; cbn [fold_left].
  - split; [now left | intros z [<-|[]]; lra].
  - destruct (IH (Rmax x y)) as [Hin Hub]. split.
    + destruct Hin as [Heq | Hin].
      * rewrite <- Heq. unfold Rmax. destruct (Rle_dec x y); cbn; auto.
      * right; right; exact Hin.
    + intros z [Hz | [Hz | Hz]].
      * subst z. apply Rle_trans with (Rmax x y); [apply Rmax_l | apply Hub; now left].
      * subst z. apply Rle_trans with (Rmax x y); [apply Rmax_r | apply Hub; now left].
      * apply Hub; now right.
Qed.

Lemma fold_left_Rmin_spec (l : list R) (x : R) :
  is_min (fold_left Rmin l x) (x :: l).
Proof.
  revert x; induction l as [|y l IH]; intros x; cbn [fold_left].
  - split; [now left | intros z [<-|[]]; lra].
  - destruct (IH (Rmin x y)) as [Hin Hlb]. split.
    + destruct Hin as [Heq | Hin].
      * rewrite <- Heq. unfold Rmin. destruct (Rle_dec x y); cbn; auto.
      * right; right; exact Hin.
    + intros z [Hz | [Hz | Hz]].
      * subst z. apply Rle_trans with (Rmin x y); [apply Hlb; now left | apply Rmin_l].
      * subst z. apply Rle_trans with (Rmin x y); [apply Hlb; now left | apply Rmin_r].
      * apply Hlb; now right.
Qed.

Lemma bounding_fields_cons (p : point) (ps : list point) :
  bounding_fields (p :: ps)
  = let max_x := fold_left Rmax (map fst ps) (fst p) in
    let min_x := fold_left Rmin (map fst ps) (fst p) in
    let max_y := fold_left Rmax (map snd ps) (snd p) in
    let min_y := fold_left Rmin (map snd ps) (snd p) in
    Ok (max_x, min_x, max_y, min_y,
        ((max_x - min_x) / 2, (max_y - min_y) / 2)).
Proof. reflexivity. Qed.

Lemma bounding_fields_nil : bounding_fields [] = Raise IndexError.
Proof. reflexivity. Qed.

Lemma bounding_fields_ok (p : point) (ps : list point) :
  exists max_x min_x max_y min_y,
    bounding_fields (p :: ps)
      = Ok (max_x, min_x, max_y, min_y, half_span max_x min_x max_y min_y)
    /\ stores_bounding_box (p :: ps) max_x min_x max_y min_y.
Proof.
  rewrite bounding_fields_cons; cbv zeta.
  do 4 eexists; split; [reflexivity|].
  unfold stores_bounding_box; cbn [map].
  repeat split;
    first [ apply fold_left_Rmax_spec | apply fold_left_Rmin_spec ].
Qed.

Lemma Lines_init_ok p ps orientation line_color line_style line_width
    line_cap line_join opacity :
  exists self,
    Lines_init (p :: ps) orientation line_color line_style line_width
      line_cap line_join opacity = Ok self
    /\ Lines.points self = p :: ps
    /\ stores_bounding_box (p :: ps) (Lines.max_x self) (Lines.min_x self)
         (Lines.max_y self) (Lines.min_y self)
    /\ Lines.position self
       = half_span (Lines.max_x self) (Lines.min_x self)
           (Lines.max_y self) (Lines.min_y self).
Proof.
  destruct (bounding_fields_ok p ps) as (a & b & c & d & E & Hbox).
  unfold Lines_init; rewrite E; cbn [rbind].
  eexists; split; [reflexivity|]; cbn; auto.
Qed.

Lemma Polygon_init_ok p ps orientation fill_color line_color line_style
    line_width line_cap line_join opacity :
  exists self,
    Polygon_init (p :: ps) orientation fill_color line_color line_style
      line_width line_cap line_join opacity = Ok self
    /\ Polygon.points self = p :: ps
    /\ Polygon.line_style self = line_style
    /\ Polygon.line_cap self = line_cap
    /\ Polygon.line_join self = line_join
    /\ stores_bounding_box (p :: ps) (Polygon.max_x self) (Polygon.min_x self)
         (Polygon.max_y self) (Polygon.min_y self)
    /\ Polygon.position self
       = half_span (Polygon.max_x self) (Polygon.min_x self)
           (Polygon.max_y self) (Polygon.min_y self).
Proof.
  destruct (bounding_fields_ok p ps) as (a & b & c & d & E & Hbox).
  unfold Polygon_init; rewrite E; cbn [rbind].
  eexists; split; [reflexivity|]; cbn; auto 10.
Qed.

Lemma Rmax_1_3 : Rmax 1 3 = 3.
Proof. unfold Rmax; destruct (Rle_dec 1 3); lra. Qed.
Lemma Rmin_1_3 : Rmin 1 3 = 1.
Proof. unfold Rmin; destruct (Rle_dec 1 3); lra. Qed.
Lemma Rmax_1_5 : Rmax 1 5 = 5.
Proof. unfold Rmax; destruct (Rle_dec 1 5); lra. Qed.
Lemma Rmin_1_5 : Rmin 1 5 = 1.
Proof. unfold Rmin; destruct (Rle_dec 1 5); lra. Qed.

Lemma pair_neq_fst (a b c d : R) : a <> c -> (a, b) <> (c, d).
Proof. intros H E; apply H; congruence. Qed.

Lemma pair_neq_snd (a b c d : R) : b <> d -> (a, b) <> (c, d).
Proof. intros H E; apply H; congruence. Qed.

(** C8.  For every Lines or Polygon built from a (non-empty) point list, the
    pivot [position] stored by the constructor is
    [((max_x - min_x) / 2, (max_y - min_y) / 2)], with [max_x], [min_x],
    [max_y], [min_y] the extreme coordinates of the points; and that is a
    different point from the bounding-box centre, the centroid and the
    bounding box's minimum corner, as the points (1,1), (3,5) show. *)
Theorem pivot_is_half_bounding_box_span :
  (forall p ps orientation line_color line_style line_width line_cap
          line_join opacity,
      exists self,
        Lines_init (p :: ps) orientation line_color line_style line_width
          line_cap line_join opacity = Ok self
        /\ stores_bounding_box (p :: ps) (Lines.max_x self) (Lines.min_x self)
             (Lines.max_y self) (Lines.min_y self)
        /\ Lines.position self
           = ((Lines.max_x self - Lines.min_x self) / 2,
              (Lines.max_y self - Lines.min_y self) / 2))
  /\ (forall p ps orientation fill_color line_color line_style line_width
             line_cap line_join opacity,
      exists self,
        Polygon_init (p :: ps) orientation fill_color line_color line_style
          line_width line_cap line_join opacity = Ok self
        /\ stores_bounding_box (p :: ps) (Polygon.max_x self)
             (Polygon.min_x self) (Polygon.max_y self) (Polygon.min_y self)
        /\ Polygon.position self
           = ((Polygon.max_x self - Polygon.min_x self) / 2,
              (Polygon.max_y self - Polygon.min_y self) / 2))
  /\ (let points := [(1, 1); (3, 5)] in
      exists l g,
        Lines_init points 0 (Some "black") "-" 1 "butt" "bevel" 1 = Ok l
        /\ Polygon_init points 0 None (Some "black") "-" 1 "butt" "bevel" 1
           = Ok g
        /\ Lines.position l = Polygon.position g
        /\ Lines.position l = (1, 2)
        /\ Lines.position l
           <> bbox_center (Lines.max_x l) (Lines.min_x l) (Lines.max_y l)
                (Lines.min_y l)
        /\ Lines.position l <> centroid points
        /\ Lines.position l
           <> bbox_min_corner (Lines.min_x l) (Lines.min_y l)).
Proof.
  split; [|split].
  - intros.
    destruct (Lines_init_ok p ps orientation line_color line_style line_width
                line_cap line_join opacity) as (self & E & _ & Hbox & Hpos).
    exists self; auto.
  - intros.
    destruct (Polygon_init_ok p ps orientation fill_color line_color
                line_style line_width line_cap line_join opacity)
      as (self & E & _ & _ & _ & _ & Hbox & Hpos).
    exists self; auto.
  - cbv zeta. do 2 eexists.
    split; [reflexivity|]. split; [reflexivity|].
    cbn -[Rmax Rmin Rdiv Rminus INR].
    rewrite Rmax_1_3, Rmin_1_3, Rmax_1_5, Rmin_1_5.
    unfold bbox_center, bbox_min_corner, centroid.
    cbn -[Rdiv Rminus Rplus].
    split; [reflexivity|]. split; [f_equal; lra|].
    repeat split;
      first [ apply pair_neq_fst; lra | apply pair_neq_snd; lra ].
Qed.

(** C10.  Constructing a Lines or a Polygon from an empty point list
    fails; from every non-empty point list the constructor returns, and
    the stored [max_x], [min_x], [max_y], [min_y] are the greatest and least
    coordinates of the points and the pivot is derived from them. *)
Theorem Lines_Polygon_need_a_point :
  (forall orientation line_color line_style line_width line_cap line_join
          opacity,
      Lines_init [] orientation line_color line_style line_width line_cap
        line_join opacity = Raise IndexError)
  /\ (forall orientation fill_color line_color line_style line_width line_cap
             line_join opacity,
      Polygon_init [] orientation fill_color line_color line_style
        line_width line_cap line_join opacity = Raise IndexError)
  /\ (forall p ps orientation line_color line_style line_width line_cap
             line_join opacity,
      exists self,
        Lines_init (p :: ps) orientation line_color line_style line_width
          line_cap line_join opacity = Ok self
        /\ stores_bounding_box (p :: ps) (Lines.max_x self) (Lines.min_x self)
             (Lines.max_y self) (Lines.min_y self)
        /\ Lines.min_x self <= Lines.max_x self
        /\ Lines.min_y self <= Lines.max_y self
        /\ Lines.position self
           = half_span (Lines.max_x self) (Lines.min_x self)
               (Lines.max_y self) (Lines.min_y self))
  /\ (forall p ps orientation fill_color line_color line_style line_width
             line_cap line_join opacity,
      exists self,
        Polygon_init (p :: ps) orientation fill_color line_color line_style
          line_width line_cap line_join opacity = Ok self
        /\ stores_bounding_box (p :: ps) (Polygon.max_x self)
             (Polygon.min_x self) (Polygon.max_y self) (Polygon.min_y self)
        /\ Polygon.min_x self <= Polygon.max_x self
        /\ Polygon.min_y self <= Polygon.max_y self
        /\ Polygon.position self
           = half_span (Polygon.max_x self) (Polygon.min_x self)
               (Polygon.max_y self) (Polygon.min_y self)).
Proof.
  split; [reflexivity|]. split; [reflexivity|]. split.
  - intros.
    destruct (Lines_init_ok p ps orientation line_color line_style line_width
                line_cap line_join opacity) as (self & E & _ & Hbox & Hpos).
    exists self. split; [exact E|]. split; [exact Hbox|].
    destruct Hbox as ((Hx & _) & (_ & Lx) & (Hy & _) & (_ & Ly)).
    split; [now apply Lx|]. split; [now apply Ly|]. exact Hpos.
  - intros.
    destruct (Polygon_init_ok p ps orientation fill_color line_color
                line_style line_width line_cap line_join opacity)
      as (self & E & _ & _ & _ & _ & Hbox & Hpos).
    exists self. split; [exact E|]. split; [exact Hbox|].
    destruct Hbox as ((Hx & _) & (_ & Lx) & (Hy & _) & (_ & Ly)).
    split; [now apply Lx|]. split; [now apply Ly|]. exact Hpos.
Qed.

(* ====================================================================== *)
(** * Theorems: vertices of RegularPolygon and Star *)

Lemma ceil_unique (x : R) (z : Z) : IZR z - 1 < x <= IZR z -> ceil x = z.
Proof.
  intros [Hlo Hhi]. unfold ceil.
  destruct (archimed (- x)) as [Hup1 Hup2].
  set (u := up (- x)) in *.
  assert (H1 : (z - 1 < 1 - u)%Z).
  { apply lt_IZR. rewrite !minus_IZR. lra. }
  assert (H2 : (1 - u - 1 < z)%Z).
  { apply lt_IZR. rewrite !minus_IZR. lra. }
  lia.
Qed.

Lemma ceil_INR (n : nat) : ceil (INR n) = Z.of_nat n.
Proof. apply ceil_unique. rewrite <- INR_IZR_INZ. lra. Qed.

Lemma ceil_INR_minus_half (n : nat) : ceil (INR n - 1 / 2) = Z.of_nat n.
Proof. apply ceil_unique. rewrite <- INR_IZR_INZ. lra. Qed.

Lemma INR_pos_neq (n : nat) : (0 < n)%nat -> INR n <> 0.
Proof. intros H. apply not_0_INR. lia. Qed.

Lemma pydiv_circle (n : nat) :
  (0 < n)%nat -> pydiv (2 * PI) (INR n) = Ok (2 * PI / INR n).
Proof.
  intros H. unfold pydiv.
  destruct (Req_dec_T (INR n) 0) as [E|_]; [|reflexivity].
  now apply INR_pos_neq in H.
Qed.

Lemma pydiv_zero (a : R) : pydiv a 0 = Raise ZeroDivisionError.
Proof.
  unfold pydiv. destruct (Req_dec_T 0 0) as [_|N]; [reflexivity|].
  now elim N.
Qed.

Lemma pydiv_nonzero (a b : R) : b <> 0 -> pydiv a b = Ok (a / b).
Proof.
  intros H. unfold pydiv. destruct (Req_dec_T b 0) as [E|_]; [|reflexivity].
  now elim H.
Qed.

Lemma pydiv_inv (a b q : R) : pydiv a b = Ok q -> b <> 0 /\ q = a / b.
Proof.
  unfold pydiv. destruct (Req_dec_T b 0) as [E|N]; [discriminate|].
  intros [= <-]; auto.
Qed.

(** The external angles: [0, d, 2d, ...], [n] of them. *)
Lemma arange_outer (n : nat) :
  (0 < n)%nat ->
  np_arange 0 (2 * PI) (2 * PI / INR n)
  = map (fun i => 0 + INR i * (2 * PI / INR n)) (seq 0 n).
Proof.
  intros H. unfold np_arange, arange_values.
  replace ((2 * PI - 0) / (2 * PI / INR n)) with (INR n).
  - now rewrite ceil_INR, Nat2Z.id.
  - pose proof PI_neq0. pose proof (INR_pos_neq n H). now field.
Qed.

(** The internal angles: [d/2, d/2 + d, ...], again [n] of them. *)
Lemma arange_inner (n : nat) :
  (0 < n)%nat ->
  np_arange (2 * PI / INR n / 2) (2 * PI) (2 * PI / INR n)
  = map (fun i => 2 * PI / INR n / 2 + INR i * (2 * PI / INR n)) (seq 0 n).
Proof.
  intros H. unfold np_arange, arange_values.
  replace ((2 * PI - 2 * PI / INR n / 2) / (2 * PI / INR n))
    with (INR n - 1 / 2).
  - now rewrite ceil_INR_minus_half, Nat2Z.id.
  - pose proof PI_neq0. pose proof (INR_pos_neq n H). now field.
Qed.

Lemma nth_error_map_seq {A} (f : nat -> A) (n i : nat) :
  (i < n)%nat -> nth_error (map f (seq 0 n)) i = Some (f i).
Proof.
  intros H. rewrite nth_error_map, nth_error_seq.
  destruct (Nat.ltb_spec i n); [reflexivity | lia].
Qed.

Lemma on_circle_polar radius position a :
  (radius * cos a + fst position, radius * sin a + snd position)
  = polar position radius a.
Proof. unfold polar, vadd, vscale; cbn. f_equal; ring. Qed.

Lemma dist_polar position radius a :
  dist (polar position radius a) position = Rabs radius.
Proof.
  unfold dist, polar, vadd, vscale; cbn [fst snd].
  rewrite <- sqrt_Rsqr_abs. f_equal.
  pose proof (sin2_cos2 a) as H. unfold Rsqr in *.
  replace ((fst position + radius * cos a - fst position) ^ 2
           + (snd position + radius * sin a - snd position) ^ 2)
    with (radius * radius * (sin a * sin a + cos a * cos a)) by ring.
  rewrite H. ring.
Qed.

Lemma polar_step position radius a d :
  vsub (polar position radius (a + d)) position
  = transformations.Rotate d (vsub (polar position radius a) position).
Proof.
  unfold polar, transformations.Rotate, vsub, vadd, vscale; cbn [fst snd].
  rewrite cos_plus, sin_plus. f_equal; ring.
Qed.

Lemma polar_zero position radius :
  polar position radius 0 = (fst position + radius, snd position).
Proof.
  unfold polar, vadd, vscale; cbn [fst snd].
  rewrite cos_0, sin_0. f_equal; ring.
Qed.

Lemma polar_period position radius a :
  polar position radius (a + 2 * PI) = polar position radius a.
Proof.
  unfold polar. f_equal. f_equal. f_equal.
  - rewrite cos_plus, cos_2PI, sin_2PI. ring.
  - rewrite sin_plus, cos_2PI, sin_2PI. ring.
Qed.

Lemma Some_eq {A} (x y : A) : Some x = Some y -> x = y.
Proof. congruence. Qed.

Lemma RegularPolygon_init_ok n radius position orientation fill_color
    line_color line_style line_width line_cap line_join opacity :
  (0 < n)%nat ->
  exists self,
    RegularPolygon_init n radius position orientation fill_color line_color
      line_style line_width line_cap line_join opacity = Ok self
    /\ RegularPolygon.points self
       = map (fun i => polar position radius (INR i * (2 * PI / INR n)))
             (seq 0 n)
    /\ RegularPolygon.position self = position
    /\ RegularPolygon.line_style self = line_style
    /\ RegularPolygon.line_cap self = line_cap
    /\ RegularPolygon.line_join self = line_join.
Proof.
  intros H. unfold RegularPolygon_init.
  rewrite (pydiv_circle n H); cbn [rbind].
  eexists; split; [reflexivity|]. cbn.
  split; [|auto].
  rewrite (arange_outer n H). unfold on_circle. rewrite map_map.
  apply map_ext. intros i. rewrite on_circle_polar. f_equal. ring.
Qed.

(** The vertices of a regular polygon in exact arithmetic.  For every
    [RegularPolygon(n_faces, radius, position)] with a positive number of
    faces the constructor returns, and exactly [n_faces] vertices are
    generated, the [i]-th (0-based) being
    [position + radius * (cos (i*2*pi/n_faces), sin (i*2*pi/n_faces))].
    Hence every vertex is at Euclidean distance [|radius|] from [position]
    (which is [radius] for a non-negative radius), each vertex is the
    previous one turned by [2*pi/n_faces] about [position] (also from the
    last back to the first), and the first vertex is
    [position + (radius, 0)], on the local x-axis. *)
Theorem RegularPolygon_vertices :
  forall n_faces radius position orientation fill_color line_color
         line_style line_width line_cap line_join opacity,
    (0 < n_faces)%nat ->
    exists self,
      RegularPolygon_init n_faces radius position orientation fill_color
        line_color line_style line_width line_cap line_join opacity = Ok self
      /\ List.length (RegularPolygon.points self) = n_faces
      /\ (forall i, (i < n_faces)%nat ->
            nth_error (RegularPolygon.points self) i
            = Some (polar position radius (INR i * 2 * PI / INR n_faces)))
      /\ (forall v, In v (RegularPolygon.points self) ->
            dist v position = Rabs radius
            /\ (0 <= radius -> dist v position = radius))
      /\ (forall i v w, (S i < n_faces)%nat ->
            nth_error (RegularPolygon.points self) i = Some v ->
            nth_error (RegularPolygon.points self) (S i) = Some w ->
            vsub w position
            = transformations.Rotate (2 * PI / INR n_faces) (vsub v position))
      /\ (forall v w,
            nth_error (RegularPolygon.points self) (n_faces - 1) = Some v ->
            nth_error (RegularPolygon.points self) 0 = Some w ->
            vsub w position
            = transformations.Rotate (2 * PI / INR n_faces) (vsub v position))
      /\ nth_error (RegularPolygon.points self) 0
         = Some (fst position + radius, snd position).
Proof.
  intros n radius position orientation fill_color line_color line_style
         line_width line_cap line_join opacity Hn.
  destruct (RegularPolygon_init_ok n radius position orientation fill_color
              line_color line_style line_width line_cap line_join opacity Hn)
    as (self & E & Hpts & _).
  pose proof (INR_pos_neq n Hn) as Hn0.
  exists self. split; [exact E|]. rewrite Hpts.
  assert (Hnth : forall i, (i < n)%nat ->
            nth_error
              (map (fun i => polar position radius (INR i * (2 * PI / INR n)))
                   (seq 0 n)) i
            = Some (polar position radius (INR i * (2 * PI / INR n)))).
  { intros i Hi. now rewrite nth_error_map_seq. }
  split; [now rewrite length_map, length_seq|].
  split.
  { intros i Hi. rewrite (Hnth i Hi). do 2 f_equal. now field. }
  split.
  { intros v Hv. apply in_map_iff in Hv. destruct Hv as (i & <- & _).
    split; [apply dist_polar|].
    intros Hr. rewrite dist_polar. now apply Rabs_pos_eq. }
  split.
  { intros i v w Hi Hv Hw.
    rewrite Hnth in Hv by lia. rewrite Hnth in Hw by lia.
    apply Some_eq in Hv, Hw. subst v w.
    rewrite <- polar_step. do 2 f_equal. rewrite S_INR. ring. }
  split.
  { intros v w Hv Hw.
    rewrite Hnth in Hv by lia. rewrite Hnth in Hw by lia.
    apply Some_eq in Hv, Hw. subst v w.
    rewrite <- polar_step.
    replace (INR (n - 1) * (2 * PI / INR n) + 2 * PI / INR n)
      with (0 + 2 * PI).
    - rewrite polar_period. do 2 f_equal. cbn. ring.
    - rewrite minus_INR by lia. cbn. now field. }
  rewrite (Hnth 0%nat Hn). f_equal.
  replace (INR 0 * (2 * PI / INR n)) with 0 by (cbn; ring).
  apply polar_zero.
Qed.

(** A square of radius 2 centred at (1, 1). *)
Lemma RegularPolygon_vertices_square :
  (0 < 4)%nat /\
  exists self,
    RegularPolygon_init 4 2 (1, 1) 0 None (Some "black") "-" 1 "butt" "bevel" 1
    = Ok self
    /\ List.length (RegularPolygon.points self) = 4%nat.
Proof.
  split; [lia|].
  destruct (RegularPolygon_vertices 4 2 (1, 1) 0 None (Some "black") "-" 1
              "butt" "bevel" 1 ltac:(lia)) as (self & E & L & _).
  exists self; split; assumption.
Defined.

Lemma RegularPolygon_init_zero radius position orientation fill_color
    line_color line_style line_width line_cap line_join opacity :
  RegularPolygon_init 0 radius position orientation fill_color line_color
    line_style line_width line_cap line_join opacity
  = Raise ZeroDivisionError.
Proof. unfold RegularPolygon_init. cbn [INR]. now rewrite pydiv_zero. Qed.

Lemma index_Some {A} (a : list A) (i : nat) (x : A) :
  nth_error a i = Some x -> index a i = Ok x.
Proof. unfold index. now intros ->. Qed.

Lemma interleave_from_ok (external internal : list point) :
  forall i,
    (i + List.length external <= List.length internal)%nat ->
    exists pts,
      interleave_from i external internal = Ok pts
      /\ List.length pts = (2 * List.length external)%nat
      /\ forall k, (k < List.length external)%nat ->
           nth_error pts (2 * k) = nth_error external k
           /\ nth_error pts (2 * k + 1) = nth_error internal (i + k).
Proof.
  induction external as [|e ext IH]; intros i Hlen.
  - exists []. cbn. repeat split; try lia.
  - cbn [List.length] in Hlen.
    destruct (nth_error internal i) as [q|] eqn:Hq.
    2:{ apply nth_error_None in Hq. lia. }
    destruct (IH (S i) ltac:(lia)) as (rest & E & L & Hnth).
    exists (e :: q :: rest).
    cbn [interleave_from]. rewrite (index_Some _ _ _ Hq). cbn [rbind].
    rewrite E. cbn [rbind]. split; [reflexivity|].
    split; [cbn [List.length]; lia|].
    intros [|k] Hk.
    + cbn. now rewrite Nat.add_0_r.
    + cbn [List.length] in Hk.
      destruct (Hnth k ltac:(lia)) as [H1 H2].
      replace (2 * S k)%nat with (S (S (2 * k))) by lia.
      replace (S (S (2 * k)) + 1)%nat with (S (S (2 * k + 1))) by lia.
      cbn [nth_error]. rewrite H1, H2.
      split; [reflexivity|]. f_equal. lia.
Qed.

Lemma Star_init_zero external_radius internal_radius position orientation
    fill_color line_color line_style line_width line_cap line_join opacity :
  Star_init 0 external_radius internal_radius position orientation fill_color
    line_color line_style line_width line_cap line_join opacity
  = Raise ZeroDivisionError.
Proof. unfold Star_init. cbn [INR]. now rewrite pydiv_zero. Qed.

Lemma Star_init_ok n external_radius internal_radius position orientation
    fill_color line_color line_style line_width line_cap line_join opacity :
  (0 < n)%nat ->
  exists self,
    Star_init n external_radius internal_radius position orientation
      fill_color line_color line_style line_width line_cap line_join opacity
    = Ok self
    /\ List.length (Star.points self) = (2 * n)%nat
    /\ (forall k, (k < n)%nat ->
          nth_error (Star.points self) (2 * k)
          = Some (polar position external_radius (INR k * (2 * PI / INR n)))
          /\ nth_error (Star.points self) (2 * k + 1)
             = Some (polar position internal_radius
                       (INR k * (2 * PI / INR n) + PI / INR n)))
    /\ Star.position self = position
    /\ Star.line_style self = line_style
    /\ Star.line_cap self = line_cap
    /\ Star.line_join self = line_join.
Proof.
  intros H. unfold Star_init.
  pose proof (INR_pos_neq n H) as Hn0.
  rewrite (pydiv_circle n H); cbn [rbind].
  rewrite (arange_outer n H), (arange_inner n H).
  unfold on_circle. rewrite !map_map.
  match goal with
  | |- context [interleave_from 0 ?a ?b] =>
      destruct (interleave_from_ok a b 0) as (pts & E & L & Hnth)
  end.
  { rewrite !length_map, !length_seq. lia. }
  rewrite E; cbn [rbind].
  eexists; split; [reflexivity|].
  cbn [Star.points Star.position Star.line_style Star.line_cap Star.line_join].
  rewrite length_map, length_seq in L, Hnth.
  split; [exact L|]. split; [|auto].
  intros k Hk. destruct (Hnth k Hk) as [H1 H2].
  rewrite H1, H2. cbn [Nat.add].
  rewrite !nth_error_map_seq by exact Hk.
  rewrite !on_circle_polar.
  split; do 2 f_equal; now field.
Qed.

(** The vertices of a star in exact arithmetic.  For every
    [Star(n_points, external_radius, internal_radius, position)] with a
    positive number of points the constructor returns, and exactly
    [2 * n_points] vertices are generated, alternately outer and inner: the
    vertex of index [2k] is at distance [|external_radius|] from [position]
    in direction [k*2*pi/n_points], and the vertex of index [2k+1] is at
    distance [|internal_radius|] in direction
    [k*2*pi/n_points + pi/n_points]. *)
Theorem Star_vertices :
  forall n_points external_radius internal_radius position orientation
         fill_color line_color line_style line_width line_cap line_join
         opacity,
    (0 < n_points)%nat ->
    exists self,
      Star_init n_points external_radius internal_radius position orientation
        fill_color line_color line_style line_width line_cap line_join opacity
      = Ok self
      /\ List.length (Star.points self) = (2 * n_points)%nat
      /\ forall k, (k < n_points)%nat ->
           exists outer inner,
             nth_error (Star.points self) (2 * k) = Some outer
             /\ nth_error (Star.points self) (2 * k + 1) = Some inner
             /\ outer = polar position external_radius
                          (INR k * 2 * PI / INR n_points)
             /\ inner = polar position internal_radius
                          (INR k * 2 * PI / INR n_points + PI / INR n_points)
             /\ dist outer position = Rabs external_radius
             /\ dist inner position = Rabs internal_radius
             /\ (0 <= external_radius -> dist outer position = external_radius)
             /\ (0 <= internal_radius -> dist inner position = internal_radius).
Proof.
  intros n re ri position orientation fill_color line_color line_style
         line_width line_cap line_join opacity Hn.
  destruct (Star_init_ok n re ri position orientation fill_color line_color
              line_style line_width line_cap line_join opacity Hn)
    as (self & E & L & Hnth & _).
  pose proof (INR_pos_neq n Hn) as Hn0.
  exists self. split; [exact E|]. split; [exact L|].
  intros k Hk. destruct (Hnth k Hk) as [H1 H2].
  do 2 eexists. split; [exact H1|]. split; [exact H2|].
  split; [f_equal; now field|].
  split; [f_equal; now field|].
  rewrite !dist_polar.
  repeat split; auto; intros Hr; now apply Rabs_pos_eq.
Qed.

(** A five-pointed star. *)
Lemma Star_vertices_five_points :
  (0 < 5)%nat /\
  exists self,
    Star_init 5 2 1 (0, 0) 0 None (Some "black") "-" 1 "butt" "bevel" 1
    = Ok self
    /\ List.length (Star.points self) = 10%nat.
Proof.
  split; [lia|].
  destruct (Star_vertices 5 2 1 (0, 0) 0 None (Some "black") "-" 1
              "butt" "bevel" 1 ltac:(lia)) as (self & E & L & _).
  exists self; split; assumption.
Defined.

(* ====================================================================== *)
(** * Theorems: the vertex counts in binary64 arithmetic *)

Lemma on_circle_length radius position angles :
  List.length (on_circle radius position angles) = List.length angles.
Proof. unfold on_circle. apply length_map. Qed.

Lemma arange_values_length start step len :
  List.length (arange_values start step len) = len.
Proof. unfold arange_values. now rewrite length_map, length_seq. Qed.

Lemma binary64_np_pi_bits :
  FloatOps.Prim2SF binary64.np_pi
  = SpecFloat.S754_finite false 7074237752028440 (-51).
Proof. vm_compute. reflexivity. Qed.

Lemma interleave_from_short (external internal : list point) :
  forall i,
    (i <= List.length internal < i + List.length external)%nat ->
    interleave_from i external internal = Raise IndexError.
Proof.
  induction external as [|e ext IH]; intros i H; cbn [List.length] in H.
  - lia.
  - cbn [interleave_from]. unfold index.
    destruct (nth_error internal i) as [q|] eqn:Hq; [|reflexivity].
    assert (i < List.length internal)%nat
      by (apply nth_error_Some; congruence).
    cbn [rbind]. rewrite (IH (S i)) by lia. reflexivity.
Qed.

(** C6 on the code as it runs.  In binary64 arithmetic
    [2*pi / (2*pi / 61)] rounds to [61.00000000000001], so
    [np.arange(0, 2*pi, 2*pi/61)] has 62 elements and
    [RegularPolygon(61, ...)] gets 62 vertices, one more than [n_faces];
    for 60 faces the count is 60. *)
Theorem RegularPolygon_61_faces_62_vertices :
  binary64.n_angles 61 = Some 62%Z
  /\ binary64.n_angles 60 = Some 60%Z
  /\ forall radius position start step,
       List.length
         (on_circle radius position (arange_values start step 62))
       = 62%nat.
Proof.
  split; [vm_compute; reflexivity|].
  split; [vm_compute; reflexivity|].
  intros. now rewrite on_circle_length, arange_values_length.
Qed.

(** C7 on the code as it runs.  For [Star(61, ...)] the external angles
    are 62 and the internal angles 61, so the loop of lines 400-403 indexes
    the internal coordinates out of range: the constructor raises
    [IndexError] and no vertex list is produced. *)
Theorem Star_61_points_raises :
  binary64.n_angles 61 = Some 62%Z
  /\ binary64.n_internal_angles 61 = Some 61%Z
  /\ forall external_radius internal_radius position delta_angle,
       interleave_from 0
         (on_circle external_radius position
            (arange_values 0 delta_angle 62))
         (on_circle internal_radius position
            (arange_values (delta_angle / 2) delta_angle 61))
       = Raise IndexError.
Proof.
  split; [vm_compute; reflexivity|].
  split; [vm_compute; reflexivity|].
  intros. apply interleave_from_short.
  rewrite !on_circle_length, !arange_values_length. lia.
Qed.

(* ====================================================================== *)
(** * Theorems: the head of an Arrow *)

Lemma truthy_Some (m : R) : truthy (Some m) = true <-> m <> 0.
Proof.
  unfold truthy. destruct (Req_dec_T m 0) as [E|N]; split; intros H.
  - discriminate.
  - now elim H.
  - exact N.
  - reflexivity.
Qed.

Lemma adjust_head_set (L hl hw m hl' hw' : R) :
  truthy (Some m) = true ->
  adjust_head L hl hw (Some m) = Ok (hl', hw') ->
  (L < m -> hl <> 0 /\ hl' = 1 /\ hw' = hw / hl)
  /\ (~ L < m -> hl * L < m ->
        hl <> 0 /\ L <> 0 /\ hl' = m / L /\ hw' = hw / hl * (m / L))
  /\ (~ L < m -> ~ hl * L < m -> hl' = hl /\ hw' = hw).
Proof.
  intros Ht. unfold adjust_head. rewrite Ht.
  destruct (Rlt_dec L m) as [H1|H1].
  - intros E.
    destruct (pydiv hw hl) as [q|] eqn:Eq; [|discriminate].
    apply pydiv_inv in Eq. destruct Eq as [Hhl ->].
    cbn in E. injection E as <- <-.
    split; [auto|]. split; intros; contradiction.
  - destruct (Rlt_dec (hl * L) m) as [H2|H2].
    + intros E.
      destruct (pydiv hw hl) as [q|] eqn:Eq; [|discriminate].
      apply pydiv_inv in Eq. destruct Eq as [Hhl ->].
      cbn [rbind] in E.
      destruct (pydiv m L) as [q|] eqn:Eq; [|discriminate].
      apply pydiv_inv in Eq. destruct Eq as [HL ->].
      cbn in E. injection E as <- <-.
      split; [intros; contradiction|]. split; [auto|].
      intros; contradiction.
    + intros [= <- <-].
      split; [intros; contradiction|]. split; [intros; contradiction|].
      auto.
Qed.

Lemma adjust_head_returns (L hl hw : R) (min_head_length : option R) :
  hl <> 0 -> exists hl' hw', adjust_head L hl hw min_head_length = Ok (hl', hw').
Proof.
  intros Hhl. unfold adjust_head.
  destruct min_head_length as [m|]; [|eauto].
  destruct (truthy (Some m)) eqn:Ht; [|eauto].
  apply truthy_Some in Ht.
  rewrite (pydiv_nonzero hw hl Hhl).
  destruct (Rlt_dec L m) as [H1|H1]; [cbn; eauto|].
  destruct (Rlt_dec (hl * L) m) as [H2|H2]; [|eauto].
  assert (HL : L <> 0).
  { intros ->. rewrite Rmult_0_r in H2. contradiction. }
  rewrite (pydiv_nonzero m L HL). cbn; eauto.
Qed.

Lemma Arrow_init_inv origin vector head_style head_length head_width
    min_head_length line_color line_style line_width opacity self :
  Arrow_init origin vector head_style head_length head_width min_head_length
    line_color line_style line_width opacity = Ok self ->
  adjust_head (sqrt (fst vector ^ 2 + snd vector ^ 2)) head_length head_width
    min_head_length = Ok (Arrow.head_length self, Arrow.head_width self)
  /\ Arrow.length self = sqrt (fst vector ^ 2 + snd vector ^ 2)
  /\ Arrow.origin self = origin
  /\ Arrow.vector self = vector
  /\ Arrow.head_style self = head_style
  /\ Arrow.line_style self = line_style
  /\ Arrow.line_color self = line_color
  /\ List.length (Arrow.arrow_head_points self) = 4%nat.
Proof.
  unfold Arrow_init.
  destruct (adjust_head _ head_length head_width min_head_length)
    as [[hl' hw']|] eqn:E; [|discriminate].
  cbn [rbind]. intros [= <-]. cbn. auto 10.
Qed.

Lemma Arrow_init_returns origin vector head_style head_length head_width
    min_head_length line_color line_style line_width opacity :
  head_length <> 0 ->
  exists self,
    Arrow_init origin vector head_style head_length head_width
      min_head_length line_color line_style line_width opacity = Ok self.
Proof.
  intros Hhl. unfold Arrow_init.
  destruct (adjust_head_returns (sqrt (fst vector ^ 2 + snd vector ^ 2))
              head_length head_width min_head_length Hhl) as (a & b & ->).
  cbn [rbind]. eauto.
Qed.

(** C5.  For every Arrow constructed with [min_head_length] set (a value
    that Python's [if] takes as true), with [L = |vector|]: if
    [L < min_head_length] the head length becomes 1 and the head width
    becomes the requested [head_width / head_length], so the ratio of the
    two is preserved; otherwise, if [head_length * L < min_head_length], the
    head length becomes [min_head_length / L] and the head width is scaled
    by the same factor, so the ratio is preserved again. *)
Theorem Arrow_min_head_length :
  forall origin vector head_style head_length head_width m line_color
         line_style line_width opacity self,
    truthy (Some m) = true ->
    Arrow_init origin vector head_style head_length head_width (Some m)
      line_color line_style line_width opacity = Ok self ->
    let L := sqrt (fst vector ^ 2 + snd vector ^ 2) in
    Arrow.length self = L
    /\ (L < m ->
          Arrow.head_length self = 1
          /\ Arrow.head_width self / Arrow.head_length self
             = head_width / head_length)
    /\ (~ L < m -> head_length * L < m ->
          Arrow.head_length self = m / L
          /\ Arrow.head_width self
             = head_width * (Arrow.head_length self / head_length)
          /\ Arrow.head_width self / Arrow.head_length self
             = head_width / head_length).
Proof.
  intros origin vector head_style hl hw m line_color line_style line_width
         opacity self Ht E L.
  apply Arrow_init_inv in E. destruct E as (E & HL & _).
  apply (adjust_head_set _ _ _ _ _ _ Ht) in E.
  destruct E as (B1 & B2 & _). fold L in B1, B2.
  apply truthy_Some in Ht.
  split; [exact HL|]. split.
  - intros H. destruct (B1 H) as (Hhl & -> & ->).
    split; [reflexivity|]. now field.
  - intros H1 H2. destruct (B2 H1 H2) as (Hhl & HL0 & -> & ->).
    split; [reflexivity|]. split; now field.
Qed.

Lemma sqrt_3_4 : sqrt (3 ^ 2 + 4 ^ 2) = 5.
Proof.
  replace (3 ^ 2 + 4 ^ 2) with (5 * 5) by ring.
  apply sqrt_square; lra.
Qed.

(** The theorem at two arrows along (3, 4), of length 5: one shorter than
    its minimum head length 10, one whose head 0.1 * 5 is shorter than the
    minimum head length 2. *)
Lemma Arrow_min_head_length_witness :
  truthy (Some 10) = true /\ truthy (Some 2) = true
  /\ (exists self,
        Arrow_init (0, 0) (3, 4) "triangle" (1 / 10) (2 / 10) (Some 10)
          (Some "black") "-" 1 1 = Ok self
        /\ Arrow.head_length self = 1
        /\ Arrow.head_width self / Arrow.head_length self = 2 / 10 / (1 / 10))
  /\ (exists self,
        Arrow_init (0, 0) (3, 4) "triangle" (1 / 10) (2 / 10) (Some 2)
          (Some "black") "-" 1 1 = Ok self
        /\ Arrow.head_length self = 2 / 5
        /\ Arrow.head_width self / Arrow.head_length self = 2 / 10 / (1 / 10)).
Proof.
  assert (T10 : truthy (Some 10) = true) by (apply truthy_Some; lra).
  assert (T2 : truthy (Some 2) = true) by (apply truthy_Some; lra).
  split; [exact T10|]. split; [exact T2|]. split.
  - destruct (Arrow_init_returns (0, 0) (3, 4) "triangle" (1 / 10) (2 / 10)
                (Some 10) (Some "black") "-" 1 1 ltac:(lra)) as [self E].
    exists self. split; [exact E|].
    destruct (Arrow_min_head_length _ _ _ _ _ _ _ _ _ _ _ T10 E)
      as (_ & B1 & _).
    cbn [fst snd] in B1. rewrite sqrt_3_4 in B1.
    apply B1. lra.
  - destruct (Arrow_init_returns (0, 0) (3, 4) "triangle" (1 / 10) (2 / 10)
                (Some 2) (Some "black") "-" 1 1 ltac:(lra)) as [self E].
    exists self. split; [exact E|].
    destruct (Arrow_min_head_length _ _ _ _ _ _ _ _ _ _ _ T2 E)
      as (_ & _ & B2).
    cbn [fst snd] in B2. rewrite sqrt_3_4 in B2.
    destruct B2 as (H1 & _ & H3); [lra | lra |]. auto.
Defined.

(* ====================================================================== *)
(** * Theorems: the recording surface *)

Lemma stack_depth_app (t1 t2 : list call) :
  forall d,
    stack_depth d (t1 ++ t2)
    = match stack_depth d t1 with
      | Some d' => stack_depth d' t2
      | None => None
      end.
Proof.
  induction t1 as [|c t1 IH]; intros d; [reflexivity|].
  destruct c; cbn [stack_depth app]; try apply IH.
  destruct d; [reflexivity | apply IH].
Qed.

Lemma stack_depth_neutral (t : list call) :
  Forall (fun c => neutral c = true) t -> forall d, stack_depth d t = Some d.
Proof.
  induction 1 as [|c t Hc _ IH]; intros d; [reflexivity|].
  destruct c; cbn [stack_depth]; try apply IH; discriminate.
Qed.

Lemma paint_is_neutral (t : list call) :
  Forall (fun c => is_paint c = true) t ->
  Forall (fun c => neutral c = true) t.
Proof. apply Forall_impl. now intros []. Qed.

Lemma neutral_not_restore (t : list call) :
  Forall (fun c => neutral c = true) t ->
  Forall (fun c => is_restore c = false) t.
Proof. apply Forall_impl. now intros []. Qed.

Lemma line_to_map_neutral (ps : list point) :
  Forall (fun c => neutral c = true)
         (map (fun p => line_to (fst p) (snd p)) ps).
Proof. apply Forall_forall. intros c Hc. apply in_map_iff in Hc. now destruct Hc as (p & <- & _). Qed.

Lemma line_to_map_path (ps : list point) :
  Forall (fun c => is_path c = true)
         (map (fun p => line_to (fst p) (snd p)) ps).
Proof. apply Forall_forall. intros c Hc. apply in_map_iff in Hc. now destruct Hc as (p & <- & _). Qed.

Lemma for_each_emit {A} (f : A -> call) (xs : list A) :
  for_each xs (fun x => emit (f x)) = (map f xs, Ok tt).
Proof.
  induction xs as [|x xs IH]; [reflexivity|].
  cbn [for_each map]. rewrite IH. reflexivity.
Qed.

Lemma trace_points_cons (p : point) (ps : list point) :
  trace_points (p :: ps)
  = (move_to (fst p) (snd p) :: map (fun q => line_to (fst q) (snd q)) ps,
     Ok tt).
Proof.
  unfold trace_points. cbn [tl index nth_error lift].
  rewrite for_each_emit. reflexivity.
Qed.

Lemma trace_points_nil : trace_points [] = ([], Raise IndexError).
Proof. reflexivity. Qed.

Section PaintFacts.

Variable get_color : string -> result (R * R * R).

Lemma paint_paths_invalid fill_color line_color line_width line_style
    line_cap line_join opacity e :
  style_error line_style line_cap line_join = Some e ->
  paint_paths get_color fill_color line_color line_width line_style line_cap
    line_join opacity = ([], Raise e).
Proof. intros H. unfold paint_paths. now rewrite H. Qed.

Lemma set_source_calls c opacity :
  Forall (fun c => is_paint c = true) (calls (set_source get_color c opacity)).
Proof.
  unfold set_source. destruct (get_color c) as [[[r g] b]|e]; cbn; auto.
Qed.

Lemma paint_paths_calls fill_color line_color line_width line_style
    line_cap line_join opacity :
  Forall (fun c => is_paint c = true)
    (calls (paint_paths get_color fill_color line_color line_width line_style
              line_cap line_join opacity)).
Proof.
  unfold paint_paths, set_source.
  destruct (style_error line_style line_cap line_join); [constructor|].
  destruct fill_color as [f|], line_color as [l|];
    try destruct (get_color f) as [[[r g] b]|ef];
    try destruct (get_color l) as [[[r' g'] b']|el];
    try destruct (getitem LINE_STYLES line_style) as [pat|e1];
    try destruct (str_in line_style ["."; "-."]);
    try destruct (getitem LINE_CAPS line_cap) as [cap|e2];
    try destruct (getitem LINE_JOINS line_join) as [join|e3];
    cbn; repeat constructor.
Qed.

End PaintFacts.

Arguments transformations.rotate_around_point : simpl never.

Lemma bracketed_balanced (t : list call) (u : unit) :
  bracketed (t, Ok u) -> balanced t.
Proof.
  intros (body & -> & Hn). unfold balanced. cbn [stack_depth].
  rewrite stack_depth_app, (stack_depth_neutral body Hn). reflexivity.
Qed.

Lemma bracketed_unbalanced (t : list call) (e : exn) :
  bracketed (t, Raise e) ->
  stack_depth 0 t = Some 1%nat /\ Forall (fun c => is_restore c = false) t.
Proof.
  intros (body & -> & Hn). split.
  - cbn [stack_depth]. apply (stack_depth_neutral body Hn).
  - constructor; [reflexivity | now apply neutral_not_restore].
Qed.

Section BracketFacts.

Variable get_color : string -> result (R * R * R).

Ltac split_paint H tp :=
  match goal with
  | |- context [paint_paths get_color ?f ?l ?w ?s ?c ?j ?o] =>
      pose proof (paint_paths_calls get_color f l w s c j o) as H;
      apply paint_is_neutral in H;
      destruct (paint_paths get_color f l w s c j o) as [tp [[]|?]];
      cbn [calls fst] in H
  end.

Lemma Circle_draw_bracketed self : bracketed (Circle_draw get_color self).
Proof.
  unfold Circle_draw, save_and_rotate. split_paint Hp tp; cbn.
  - eexists (_ :: _ :: tp). split; [reflexivity|]. now repeat constructor.
  - eexists (_ :: _ :: tp). rewrite ?app_nil_r.
    split; [reflexivity|]. now repeat constructor.
Qed.

Lemma Rectangle_draw_bracketed self :
  bracketed (Rectangle_draw get_color self).
Proof.
  unfold Rectangle_draw, save_and_rotate. split_paint Hp tp; cbn.
  - eexists (_ :: _ :: tp). split; [reflexivity|]. now repeat constructor.
  - eexists (_ :: _ :: tp). rewrite ?app_nil_r.
    split; [reflexivity|]. now repeat constructor.
Qed.

Lemma Lines_draw_bracketed self : bracketed (Lines_draw get_color self).
Proof.
  unfold Lines_draw, save_and_rotate.
  destruct (Lines.points self) as [|p ps].
  - rewrite trace_points_nil. cbn. eexists [_]. split; [reflexivity|].
    now repeat constructor.
  - rewrite trace_points_cons. split_paint Hp tp; cbn.
    + eexists (_ :: _ :: _ ++ tp).
      split; [cbn [app]; rewrite <- app_assoc; reflexivity|].
      repeat constructor.
      apply Forall_app. split; [apply line_to_map_neutral | exact Hp].
    + eexists (_ :: _ :: _ ++ tp). rewrite ?app_nil_r.
      split; [reflexivity|]. repeat constructor.
      apply Forall_app. split; [apply line_to_map_neutral | exact Hp].
Qed.

Lemma Polygon_draw_bracketed self : bracketed (Polygon_draw get_color self).
Proof.
  unfold Polygon_draw, save_and_rotate.
  destruct (Polygon.points self) as [|p ps].
  - rewrite trace_points_nil. cbn. eexists [_]. split; [reflexivity|].
    now repeat constructor.
  - rewrite trace_points_cons. split_paint Hp tp; cbn.
    + eexists (_ :: _ :: _ ++ close_path :: tp).
      split; [cbn [app]; rewrite <- app_assoc; reflexivity|].
      repeat constructor.
      apply Forall_app. split; [apply line_to_map_neutral|].
      now constructor.
    + eexists (_ :: _ :: _ ++ close_path :: tp). rewrite ?app_nil_r.
      split; [reflexivity|]. repeat constructor.
      apply Forall_app. split; [apply line_to_map_neutral|].
      now constructor.
Qed.

Lemma RoundedRectangle_draw_bracketed self :
  bracketed (RoundedRectangle_draw get_color self).
Proof.
  unfold RoundedRectangle_draw, save_and_rotate.
  destruct (RoundedRectangle.corner_radius self) as [cr|].
  - cbn [number lift]. split_paint Hp tp; cbn.
    + eexists (_ :: _ :: _ :: _ :: _ :: _ :: _ :: _ :: _ :: _ :: tp).
      split; [reflexivity|]. now repeat constructor.
    + eexists (_ :: _ :: _ :: _ :: _ :: _ :: _ :: _ :: _ :: _ :: tp).
      rewrite ?app_nil_r. split; [reflexivity|]. now repeat constructor.
  - cbn. eexists [_]. split; [reflexivity|]. now repeat constructor.
Qed.

End BracketFacts.

Lemma bind_lift_Ok {A B} (a : A) (f : A -> M B) : bind (lift (Ok a)) f = f a.
Proof. unfold bind, lift. now destruct (f a). Qed.

Lemma bind_lift_Raise {A B} (e : exn) (f : A -> M B) :
  bind (lift (Raise e)) f = ([], Raise e).
Proof. reflexivity. Qed.

Section DrawFacts.

Variable get_color : string -> result (R * R * R).

Lemma RegularPolygon_draw_shape self :
  bracketed (RegularPolygon_draw get_color self)
  \/ never_started (RegularPolygon_draw get_color self).
Proof.
  unfold RegularPolygon_draw.
  destruct (Polygon_init _ _ _ _ _ _ _ _ _) as [polygon|e].
  - rewrite bind_lift_Ok. left. apply Polygon_draw_bracketed.
  - right. now exists e.
Qed.

Lemma Star_draw_shape self :
  bracketed (Star_draw get_color self)
  \/ never_started (Star_draw get_color self).
Proof.
  unfold Star_draw.
  destruct (Polygon_init _ _ _ _ _ _ _ _ _) as [polygon|e].
  - rewrite bind_lift_Ok. left. apply Polygon_draw_bracketed.
  - right. now exists e.
Qed.

Lemma Arrow_draw_head_shape self :
  Arrow_draw_head get_color self = ([], Ok tt)
  \/ bracketed (Arrow_draw_head get_color self)
  \/ never_started (Arrow_draw_head get_color self).
Proof.
  unfold Arrow_draw_head.
  destruct (String.eqb (Arrow.head_style self) "triangle").
  { destruct (np_mask _ _) as [points|e];
      [rewrite bind_lift_Ok | right; right; now exists e].
    destruct (Polygon_init _ _ _ _ _ _ _ _ _) as [polygon|e];
      [rewrite bind_lift_Ok | right; right; now exists e].
    right; left. apply Polygon_draw_bracketed. }
  destruct (String.eqb (Arrow.head_style self) "stroke").
  { destruct (index _ 1) as [p1|e];
      [rewrite bind_lift_Ok | right; right; now exists e].
    destruct (index _ 0) as [p0|e];
      [rewrite bind_lift_Ok | right; right; now exists e].
    destruct (index _ 3) as [p3|e];
      [rewrite bind_lift_Ok | right; right; now exists e].
    destruct (Lines_init _ _ _ _ _ _ _ _) as [lines|e];
      [rewrite bind_lift_Ok | right; right; now exists e].
    right; left. apply Lines_draw_bracketed. }
  destruct (String.eqb (Arrow.head_style self) "arrow").
  { destruct (Polygon_init _ _ _ _ _ _ _ _ _) as [polygon|e];
      [rewrite bind_lift_Ok | right; right; now exists e].
    right; left. apply Polygon_draw_bracketed. }
  now left.
Qed.

(** Once the shaft has been painted, the closing [paint_paths] of
    [Arrow.draw] cannot raise: its style is valid and its colour has already
    been looked up. *)
Lemma Arrow_closing_paint_returns line_color line_width line_style opacity t1 :
  paint_paths get_color None line_color line_width line_style "butt" "mitter"
    opacity = (t1, Ok tt) ->
  exists t2,
    paint_paths get_color line_color None line_width "-" "butt" "mitter"
      opacity = (t2, Ok tt)
    /\ Forall (fun c => neutral c = true) t2.
Proof.
  unfold paint_paths at 1.
  destruct (style_error line_style "butt" "mitter"); [discriminate|].
  destruct line_color as [c|].
  - unfold paint_paths, set_source. cbn [style_error].
    destruct (get_color c) as [[[r g] b]|e].
    + intros _. eexists. split; [reflexivity|]. now repeat constructor.
    + discriminate.
  - intros _. exists []. split; [reflexivity | constructor].
Qed.

Lemma Arrow_draw_cases self :
  match Arrow_draw get_color self with
  | (t, Ok _) => balanced t
  | (t, Raise _) => Forall (fun c => is_restore c = false) t
  end.
Proof.
  unfold Arrow_draw.
  pose proof (Arrow_closing_paint_returns (Arrow.line_color self)
                (Arrow.line_width self) (Arrow.line_style self)
                (Arrow.opacity self)) as Hclose.
  pose proof (paint_paths_calls get_color None (Arrow.line_color self)
                (Arrow.line_width self) (Arrow.line_style self) "butt"
                "mitter" (Arrow.opacity self)) as H1.
  apply paint_is_neutral in H1.
  destruct (paint_paths get_color None _ _ _ "butt" "mitter" _)
    as [t1 [[]|e1]]; cbn [calls fst] in H1.
  2:{ cbn. repeat constructor. now apply neutral_not_restore. }
  destruct (Hclose t1 eq_refl) as (t2 & -> & H2). clear Hclose.
  destruct (Arrow_draw_head_shape self) as [-> | [Hb | (e & ->)]].
  - cbn. unfold balanced. cbn [stack_depth].
    rewrite stack_depth_app, (stack_depth_neutral t1 H1).
    apply (stack_depth_neutral t2 H2).
  - destruct (Arrow_draw_head get_color self) as [th [[]|eh]].
    + apply bracketed_balanced in Hb. cbn. unfold balanced in *.
      cbn [stack_depth].
      rewrite stack_depth_app, (stack_depth_neutral t1 H1).
      rewrite stack_depth_app, Hb.
      apply (stack_depth_neutral t2 H2).
    + apply bracketed_unbalanced in Hb. destruct Hb as [_ Hb]. cbn.
      repeat constructor. apply Forall_app.
      split; [now apply neutral_not_restore | exact Hb].
  - cbn. repeat constructor. rewrite app_nil_r.
    now apply neutral_not_restore.
Qed.

End DrawFacts.

(* ====================================================================== *)
(** * Theorems: save and restore around a draw *)

Lemma draw_bracketed_or_never_started get_color (s : shape) :
  is_Arrow s = false ->
  bracketed (draw get_color s) \/ never_started (draw get_color s).
Proof.
  destruct s; cbn [is_Arrow draw]; intros H; try discriminate.
  - left; apply Circle_draw_bracketed.
  - left; apply Rectangle_draw_bracketed.
  - left; apply Lines_draw_bracketed.
  - left; apply Polygon_draw_bracketed.
  - apply RegularPolygon_draw_shape.
  - apply Star_draw_shape.
  - left; apply RoundedRectangle_draw_bracketed.
Qed.

(** C3, as the code has it.  No [draw] protects its [restore]: the pair is
    a plain sequence.  (1) Every [draw] other than Arrow's either raises
    before touching the surface or calls [save] first, no [save] or
    [restore] in between, and [restore] last exactly when it returns.
    (2) After every [draw] that returns, Arrow's included, each [save] has
    been matched by a [restore].  (3) Whenever a [draw] raises, no
    [restore] has been called, and for the shapes other than Arrow a
    [draw] that raises after its first call leaves one saved state on the
    surface's stack. *)
Theorem draw_restores_only_on_return :
  forall (get_color : string -> result (R * R * R)) (s : shape),
    (is_Arrow s = false ->
       bracketed (draw get_color s) \/ never_started (draw get_color s))
    /\ (forall u, outcome (draw get_color s) = Ok u ->
          balanced (calls (draw get_color s)))
    /\ (forall e, outcome (draw get_color s) = Raise e ->
          Forall (fun c => is_restore c = false) (calls (draw get_color s))
          /\ (is_Arrow s = false -> calls (draw get_color s) <> [] ->
                stack_depth 0 (calls (draw get_color s)) = Some 1%nat)).
Proof.
  intros get_color s.
  split; [apply draw_bracketed_or_never_started|].
  destruct (is_Arrow s) eqn:Hs.
  - destruct s; try discriminate. cbn [draw].
    pose proof (Arrow_draw_cases get_color a) as H.
    destruct (Arrow_draw get_color a) as [t [u|e]]; cbn [calls outcome fst snd].
    + split; [auto | discriminate].
    + split; [discriminate|]. intros e' _. split; [exact H | discriminate].
  - destruct (draw_bracketed_or_never_started get_color s Hs) as [H | (e0 & H)].
    + destruct (draw get_color s) as [t [u|e]]; cbn [calls outcome fst snd].
      * split; [|discriminate]. intros _ _. now apply (bracketed_balanced t u).
      * split; [discriminate|]. intros e' _.
        apply bracketed_unbalanced in H. destruct H as [H1 H2]. auto.
    + rewrite H; cbn [calls outcome fst snd].
      split; [discriminate|]. intros e' _. split; [constructor|].
      intros _ N. now elim N.
Qed.

(* ====================================================================== *)
(** * Theorems: an invalid style option *)

Section InvalidStyle.

Variable get_color : string -> result (R * R * R).

Lemma Polygon_draw_invalid self e p ps :
  Polygon.points self = p :: ps ->
  style_error (Polygon.line_style self) (Polygon.line_cap self)
    (Polygon.line_join self) = Some e ->
  Polygon_draw get_color self
  = (save
     :: transform (transformations.rotate_around_point
                     (radians (Polygon.orientation self))
                     (Polygon.position self))
     :: (move_to (fst p) (snd p)
         :: map (fun q => line_to (fst q) (snd q)) ps ++ [close_path]),
     Raise e).
Proof.
  intros Hp He. unfold Polygon_draw, save_and_rotate.
  rewrite Hp, trace_points_cons, (paint_paths_invalid _ _ _ _ _ _ _ _ _ He).
  reflexivity.
Qed.

Lemma nonempty_cons {A} (l : list A) :
  negb (Nat.eqb (List.length l) 0) = true -> exists x xs, l = x :: xs.
Proof. destruct l as [|x xs]; [discriminate | eauto]. Qed.

Lemma path_after_move ps :
  Forall (fun c => is_path c = true)
    (map (fun q : point => line_to (fst q) (snd q)) ps ++ [close_path]).
Proof.
  apply Forall_app. split; [apply line_to_map_path | now repeat constructor].
Qed.

Lemma draw_invalid_style_setup (s : shape) (e : exn) :
  is_Arrow s = false -> well_formed s = true -> invalid_style s = Some e ->
  outcome (draw get_color s) = Raise e
  /\ only_setup (calls (draw get_color s)).
Proof.
  unfold invalid_style, only_setup.
  destruct s; cbn [is_Arrow well_formed style_of draw]; intros Ha Hw He;
    try discriminate.
  - unfold Circle_draw, save_and_rotate.
    rewrite (paint_paths_invalid _ _ _ _ _ _ _ _ _ He). cbn.
    split; [reflexivity|]. do 2 eexists. split; [reflexivity|].
    split; [discriminate | now repeat constructor].
  - unfold Rectangle_draw, save_and_rotate.
    rewrite (paint_paths_invalid _ _ _ _ _ _ _ _ _ He). cbn.
    split; [reflexivity|]. do 2 eexists. split; [reflexivity|].
    split; [discriminate | now repeat constructor].
  - apply nonempty_cons in Hw. destruct Hw as (p & ps & Hp).
    unfold Lines_draw, save_and_rotate.
    rewrite Hp, trace_points_cons, (paint_paths_invalid _ _ _ _ _ _ _ _ _ He).
    cbn. split; [reflexivity|]. do 2 eexists. split; [reflexivity|].
    split; [discriminate|]. rewrite app_nil_r. constructor; [reflexivity|].
    apply line_to_map_path.
  - apply nonempty_cons in Hw. destruct Hw as (q & qs & Hp).
    rewrite (Polygon_draw_invalid p e q qs Hp He). cbn.
    split; [reflexivity|]. do 2 eexists. split; [reflexivity|].
    split; [discriminate|]. constructor; [reflexivity | apply path_after_move].
  - apply nonempty_cons in Hw. destruct Hw as (q & qs & Hp).
    unfold RegularPolygon_draw. rewrite Hp.
    destruct (Polygon_init_ok q qs (RegularPolygon.orientation p)
                (RegularPolygon.fill_color p) (RegularPolygon.line_color p)
                (RegularPolygon.line_style p) (RegularPolygon.line_width p)
                (RegularPolygon.line_cap p) (RegularPolygon.line_join p)
                (RegularPolygon.opacity p))
      as (g & -> & Hpts & Hs & Hc & Hj & _).
    rewrite bind_lift_Ok.
    rewrite (Polygon_draw_invalid _ e q qs);
      [| exact Hpts | cbn; now rewrite Hs, Hc, Hj].
    cbn. split; [reflexivity|]. do 2 eexists. split; [reflexivity|].
    split; [discriminate|]. constructor; [reflexivity | apply path_after_move].
  - apply nonempty_cons in Hw. destruct Hw as (q & qs & Hp).
    unfold Star_draw. rewrite Hp.
    destruct (Polygon_init_ok q qs (Star.orientation s) (Star.fill_color s)
                (Star.line_color s) (Star.line_style s) (Star.line_width s)
                (Star.line_cap s) (Star.line_join s) (Star.opacity s))
      as (g & -> & Hpts & Hs & Hc & Hj & _).
    rewrite bind_lift_Ok.
    rewrite (Polygon_draw_invalid _ e q qs);
      [| exact Hpts | cbn; now rewrite Hs, Hc, Hj].
    cbn. split; [reflexivity|]. do 2 eexists. split; [reflexivity|].
    split; [discriminate|]. constructor; [reflexivity | apply path_after_move].
  - unfold RoundedRectangle_draw, save_and_rotate.
    destruct (RoundedRectangle.corner_radius r) as [cr|]; [|discriminate].
    rewrite (paint_paths_invalid _ _ _ _ _ _ _ _ _ He). cbn.
    split; [reflexivity|]. do 2 eexists. split; [reflexivity|].
    split; [discriminate | now repeat constructor].
Qed.

Lemma Arrow_draw_invalid_style (a : Arrow.t) (e : exn) :
  invalid_style (an_Arrow a) = Some e ->
  Arrow_draw get_color a
  = ([ move_to (fst (Arrow.origin a)) (snd (Arrow.origin a));
       line_to (fst (vadd (Arrow.origin a) (Arrow.vector a)))
               (snd (vadd (Arrow.origin a) (Arrow.vector a))) ],
     Raise e).
Proof.
  unfold invalid_style; cbn [style_of]. intros He. unfold Arrow_draw.
  rewrite (paint_paths_invalid _ _ _ _ _ _ _ _ _ He). reflexivity.
Qed.

End InvalidStyle.

(** C2, as the code has it.  The style is checked by [paint_paths], which
    every [draw] calls after it has built the path.  So for every shape
    whose attributes let [draw] reach [paint_paths] and whose line style,
    cap or join is invalid, [draw] raises the style error with no paint
    call recorded (no colour, line width, dash, cap, join, fill or stroke)
    and no [restore], but with the earlier calls already made on the
    surface: [save], [transform] and the path construction (for an Arrow,
    the shaft's [move_to] and [line_to]). *)
Theorem invalid_style_raises_after_path_before_paint :
  forall (get_color : string -> result (R * R * R)) (s : shape) (e : exn),
    well_formed s = true ->
    invalid_style s = Some e ->
    outcome (draw get_color s) = Raise e
    /\ Forall (fun c => is_paint c = false) (calls (draw get_color s))
    /\ Forall (fun c => is_restore c = false) (calls (draw get_color s))
    /\ Exists (fun c => is_path c = true) (calls (draw get_color s))
    /\ (is_Arrow s = false -> only_setup (calls (draw get_color s)))
    /\ (forall a, s = an_Arrow a ->
          calls (draw get_color s)
          = [ move_to (fst (Arrow.origin a)) (snd (Arrow.origin a));
              line_to (fst (vadd (Arrow.origin a) (Arrow.vector a)))
                      (snd (vadd (Arrow.origin a) (Arrow.vector a))) ]).
Proof.
  intros get_color s e Hw He.
  destruct (is_Arrow s) eqn:Ha.
  - destruct s; try discriminate. cbn [draw].
    rewrite (Arrow_draw_invalid_style get_color a e He).
    cbn [outcome calls fst snd].
    split; [reflexivity|]. split; [now repeat constructor|].
    split; [now repeat constructor|].
    split; [now left|]. split; [discriminate|].
    now intros a' [= <-].
  - destruct (draw_invalid_style_setup get_color s e Ha Hw He)
      as (Ho & m & path & Ht & Hne & Hpath).
    split; [exact Ho|]. rewrite Ht.
    assert (Hnp : Forall (fun c => is_paint c = false) path).
    { revert Hpath. apply Forall_impl. now intros []. }
    assert (Hnr : Forall (fun c => is_restore c = false) path).
    { revert Hpath. apply Forall_impl. now intros []. }
    split; [now repeat constructor|]. split; [now repeat constructor|].
    split.
    { destruct path as [|c path]; [now elim Hne|].
      right; right; left. now inversion Hpath. }
    split.
    { intros _. exists m, path. auto. }
    intros a ->. discriminate.
Qed.

(* ====================================================================== *)
(** * Theorems: the accepted line joins *)

Lemma str_in_In (k : string) (l : list string) :
  str_in k l = true <-> In k l.
Proof.
  unfold str_in. rewrite existsb_exists. split.
  - intros (x & Hx & E). apply String.eqb_eq in E. now subst.
  - intros H. exists k. split; [exact H | apply String.eqb_refl].
Qed.

Lemma str_in_not_In (k : string) (l : list string) :
  str_in k l = false <-> ~ In k l.
Proof.
  rewrite <- str_in_In. destruct (str_in k l); split; intros H;
    try reflexivity; try discriminate; auto.
  now elim H.
Qed.

Lemma getitem_in_keys {V} (d : dict V) (k : string) :
  str_in k (keys d) = true -> exists v, getitem d k = Ok v.
Proof.
  induction d as [|[k' v] d IH]; cbn; [discriminate|].
  destruct (String.eqb k k'); [eauto | exact IH].
Qed.

Lemma style_error_None line_style line_cap line_join :
  style_error line_style line_cap line_join = None
  <-> str_in line_style (keys LINE_STYLES) = true
      /\ str_in line_cap (keys LINE_CAPS) = true
      /\ str_in line_join (keys LINE_JOINS) = true.
Proof.
  unfold style_error.
  destruct (str_in line_style (keys LINE_STYLES));
    destruct (str_in line_cap (keys LINE_CAPS));
    destruct (str_in line_join (keys LINE_JOINS)); cbn [negb];
    split; intros H; try discriminate; auto;
    destruct H as (? & ? & ?); discriminate.
Qed.

(** The message of the line-join error, as line 51 builds it. *)
Lemma line_join_error_message line_style line_cap line_join :
  str_in line_style (keys LINE_STYLES) = true ->
  str_in line_cap (keys LINE_CAPS) = true ->
  str_in line_join (keys LINE_JOINS) = false ->
  style_error line_style line_cap line_join
  = Some (ValueError "Available line joints are ['square', 'round', 'butt']").
Proof. intros H1 H2 H3. unfold style_error. now rewrite H1, H2, H3. Qed.

(** C4, as the code has it.  The keys of [LINE_JOINS] are ["bevel"],
    ["round"] and ["mitter"] (so spelled).  With a valid line style and
    line cap, [paint_paths] accepts exactly these three values of
    [line_join]: each of them passes the checks, and any other value makes
    [paint_paths] raise a [ValueError] at once, before any call on the
    surface, whatever the colours. *)
Theorem line_join_accepted_iff_key :
  forall (get_color : string -> result (R * R * R))
         (fill_color line_color : color) (line_width : R)
         (line_style line_cap line_join : string) (opacity : R),
    str_in line_style (keys LINE_STYLES) = true ->
    str_in line_cap (keys LINE_CAPS) = true ->
    keys LINE_JOINS = ["bevel"; "round"; "mitter"]
    /\ (In line_join ["bevel"; "round"; "mitter"] ->
          style_error line_style line_cap line_join = None
          /\ paint_paths get_color None None line_width line_style line_cap
               line_join opacity = ([], Ok tt))
    /\ (~ In line_join ["bevel"; "round"; "mitter"] ->
          exists msg,
            style_error line_style line_cap line_join
            = Some (ValueError msg)
            /\ paint_paths get_color fill_color line_color line_width
                 line_style line_cap line_join opacity
               = ([], Raise (ValueError msg))).
Proof.
  intros get_color fill_color line_color line_width line_style line_cap
         line_join opacity Hs Hc.
  split; [reflexivity|]. split.
  - intros Hj. apply (str_in_In line_join (keys LINE_JOINS)) in Hj.
    assert (E : style_error line_style line_cap line_join = None)
      by (apply style_error_None; auto).
    split; [exact E|]. unfold paint_paths. now rewrite E.
  - intros Hj. apply (str_in_not_In line_join (keys LINE_JOINS)) in Hj.
    eexists. split; [now apply line_join_error_message|].
    apply paint_paths_invalid. now apply line_join_error_message.
Qed.

(* ====================================================================== *)
(** * Theorems: an Arrow with an unrecognised head style *)

Lemma Arrow_draw_head_unrecognised get_color (a : Arrow.t) :
  ~ In (Arrow.head_style a) ["triangle"; "stroke"; "arrow"] ->
  Arrow_draw_head get_color a = ([], Ok tt).
Proof.
  intros H. unfold Arrow_draw_head.
  destruct (String.eqb_spec (Arrow.head_style a) "triangle") as [E|_].
  { elim H. rewrite E. now left. }
  destruct (String.eqb_spec (Arrow.head_style a) "stroke") as [E|_].
  { elim H. rewrite E. right; now left. }
  destruct (String.eqb_spec (Arrow.head_style a) "arrow") as [E|_].
  { elim H. rewrite E. right; right; now left. }
  reflexivity.
Qed.

(** C9, as the code has it.  For every Arrow whose [head_style] is none of
    ["triangle"], ["stroke"], ["arrow"], the head step of [draw] does
    nothing and raises nothing.  If moreover the line style is valid, then
    with no line colour [draw] only builds the shaft path and returns; and
    with a line colour that [get_color] resolves it builds the shaft path
    from [origin] to [origin + vector], strokes it, and returns: the only
    path calls are the shaft's [move_to] and [line_to]. *)
Theorem Arrow_unrecognised_head_draws_shaft_only :
  forall (get_color : string -> result (R * R * R)) (a : Arrow.t),
    ~ In (Arrow.head_style a) ["triangle"; "stroke"; "arrow"] ->
    let tip := vadd (Arrow.origin a) (Arrow.vector a) in
    let shaft := [ move_to (fst (Arrow.origin a)) (snd (Arrow.origin a));
                   line_to (fst tip) (snd tip) ] in
    Arrow_draw_head get_color a = ([], Ok tt)
    /\ (str_in (Arrow.line_style a) (keys LINE_STYLES) = true ->
          (Arrow.line_color a = None ->
             Arrow_draw get_color a = (shaft, Ok tt))
          /\ (forall c r g b,
                Arrow.line_color a = Some c ->
                get_color c = Ok (r, g, b) ->
                exists pattern,
                  getitem LINE_STYLES (Arrow.line_style a) = Ok pattern
                  /\ Arrow_draw get_color a
                     = (shaft ++
                        [ set_source_rgba r g b (Arrow.opacity a);
                          set_line_width (Arrow.line_width a);
                          set_dash (map (fun i => Arrow.line_width a * i)
                                        pattern);
                          set_line_cap
                            (if str_in (Arrow.line_style a) ["."; "-."]
                             then LINE_CAP_ROUND else LINE_CAP_BUTT);
                          set_line_join LINE_JOIN_MITER;
                          stroke;
                          set_source_rgba r g b (Arrow.opacity a);
                          fill_preserve ],
                        Ok tt))).
Proof.
  intros get_color a Hh tip shaft.
  pose proof (Arrow_draw_head_unrecognised get_color a Hh) as Hhead.
  split; [exact Hhead|]. intros Hs.
  assert (E : style_error (Arrow.line_style a) "butt" "mitter" = None)
    by (apply style_error_None; auto).
  split.
  - intros Hc. unfold Arrow_draw, paint_paths.
    rewrite Hhead, E, Hc. reflexivity.
  - intros c r g b Hc Hg.
    destruct (getitem_in_keys LINE_STYLES (Arrow.line_style a) Hs)
      as [pattern Hp].
    exists pattern. split; [exact Hp|].
    unfold Arrow_draw, paint_paths, set_source.
    rewrite Hhead, E, Hc, Hg, Hp. cbn [style_error].
    destruct (str_in (Arrow.line_style a) ["."; "-."]); reflexivity.
Qed.

(* ====================================================================== *)
(** * Worked examples on a recording surface *)

Lemma sample_circle_zigzag_invalid :
  invalid_style (a_Circle (sample_circle "zigzag"))
  = Some (ValueError "Available line styles are ['--', '-', '.', '-.']").
Proof. reflexivity. Qed.

(** C2 fails as stated: a Circle with the unknown line style "zigzag"
    raises the style error only after [save], [transform] and [arc] have
    been called on the surface. *)
Lemma invalid_style_circle_mutates_surface :
  outcome (draw sample_colors (a_Circle (sample_circle "zigzag")))
  = Raise (ValueError "Available line styles are ['--', '-', '.', '-.']")
  /\ calls (draw sample_colors (a_Circle (sample_circle "zigzag")))
     = [ save;
         transform (transformations.rotate_around_point (radians 55)
                      (500, 500));
         arc 500 500 100 0 (2 * PI) ]
  /\ calls (draw sample_colors (a_Circle (sample_circle "zigzag"))) <> [].
Proof.
  split; [reflexivity|]. split; [reflexivity | discriminate].
Qed.

(** The C2 theorem at that Circle. *)
Lemma invalid_style_raises_after_path_before_paint_witness :
  well_formed (a_Circle (sample_circle "zigzag")) = true
  /\ invalid_style (a_Circle (sample_circle "zigzag"))
     = Some (ValueError "Available line styles are ['--', '-', '.', '-.']")
  /\ outcome (draw sample_colors (a_Circle (sample_circle "zigzag")))
     = Raise (ValueError "Available line styles are ['--', '-', '.', '-.']")
  /\ Forall (fun c => is_paint c = false)
       (calls (draw sample_colors (a_Circle (sample_circle "zigzag")))).
Proof.
  split; [reflexivity|]. split; [reflexivity|].
  destruct (invalid_style_raises_after_path_before_paint sample_colors
              (a_Circle (sample_circle "zigzag")) _ eq_refl
              sample_circle_zigzag_invalid) as (Ho & Hp & _).
  split; [exact Ho | exact Hp].
Defined.

(** C3 fails as stated: the same Circle leaves the state it saved on the
    surface's stack, no [restore] having been called. *)
Lemma invalid_style_circle_leaves_save_unmatched :
  outcome (draw sample_colors (a_Circle (sample_circle "zigzag")))
  = Raise (ValueError "Available line styles are ['--', '-', '.', '-.']")
  /\ stack_depth 0
       (calls (draw sample_colors (a_Circle (sample_circle "zigzag"))))
     = Some 1%nat
  /\ ~ balanced
         (calls (draw sample_colors (a_Circle (sample_circle "zigzag"))))
  /\ ~ In restore
         (calls (draw sample_colors (a_Circle (sample_circle "zigzag")))).
Proof.
  split; [reflexivity|]. split; [reflexivity|]. split.
  - unfold balanced. cbn. discriminate.
  - cbn. intros [H | [H | [H | []]]]; discriminate.
Qed.

Lemma sample_circle_solid_returns :
  outcome (draw sample_colors (a_Circle (sample_circle "-"))) = Ok tt.
Proof. reflexivity. Qed.

(** The C3 theorem at a Circle that draws, and at the one that raises. *)
Lemma draw_restores_only_on_return_witness :
  outcome (draw sample_colors (a_Circle (sample_circle "-"))) = Ok tt
  /\ balanced (calls (draw sample_colors (a_Circle (sample_circle "-"))))
  /\ outcome (draw sample_colors (a_Circle (sample_circle "zigzag")))
     = Raise (ValueError "Available line styles are ['--', '-', '.', '-.']")
  /\ Forall (fun c => is_restore c = false)
       (calls (draw sample_colors (a_Circle (sample_circle "zigzag")))).
Proof.
  split; [exact sample_circle_solid_returns|]. split.
  - destruct (draw_restores_only_on_return sample_colors
                (a_Circle (sample_circle "-"))) as (_ & Hok & _).
    exact (Hok tt sample_circle_solid_returns).
  - split; [reflexivity|].
    destruct (draw_restores_only_on_return sample_colors
                (a_Circle (sample_circle "zigzag"))) as (_ & _ & Herr).
    exact (proj1 (Herr _ eq_refl)).
Defined.

(** C4 fails as stated: "miter" is not accepted ("mitter" is), and the
    error lists the line caps. *)
Lemma line_join_miter_is_rejected :
  paint_paths sample_colors None (Some "black") 1 "-" "butt" "miter" 1
  = ([], Raise (ValueError
                  "Available line joints are ['square', 'round', 'butt']"))
  /\ outcome (draw sample_colors (a_Rectangle (sample_rectangle "miter")))
     = Raise (ValueError
                "Available line joints are ['square', 'round', 'butt']")
  /\ outcome (draw sample_colors (a_Rectangle (sample_rectangle "mitter")))
     = Ok tt.
Proof. repeat split. Qed.

(** The C4 theorem at the solid style and the butt cap. *)
Lemma line_join_accepted_iff_key_witness :
  str_in "-" (keys LINE_STYLES) = true
  /\ str_in "butt" (keys LINE_CAPS) = true
  /\ style_error "-" "butt" "mitter" = None
  /\ exists msg,
       paint_paths sample_colors None (Some "black") 1 "-" "butt" "miter" 1
       = ([], Raise (ValueError msg)).
Proof.
  split; [reflexivity|]. split; [reflexivity|].
  destruct (line_join_accepted_iff_key sample_colors None (Some "black") 1
              "-" "butt" "mitter" 1 eq_refl eq_refl) as (_ & Hin & _).
  destruct (line_join_accepted_iff_key sample_colors None (Some "black") 1
              "-" "butt" "miter" 1 eq_refl eq_refl) as (_ & _ & Hout).
  split.
  - apply Hin. right; right; now left.
  - destruct Hout as (msg & _ & Hp).
    + intros [H | [H | [H | []]]]; discriminate.
    + now exists msg.
Defined.

(** C9 fails as stated: an Arrow with an unrecognised head style and the
    unknown line style "zigzag" does raise, and strokes nothing. *)
Lemma unrecognised_head_arrow_can_raise :
  exists a,
    sample_arrow "zigzag" = Ok a
    /\ ~ In (Arrow.head_style a) ["triangle"; "stroke"; "arrow"]
    /\ Arrow_draw sample_colors a
       = ([ move_to 0 0; line_to (0 + 3) (0 + 4) ],
          Raise (ValueError
                   "Available line styles are ['--', '-', '.', '-.']")).
Proof.
  eexists. split; [reflexivity|]. split.
  - cbn. intros [H | [H | [H | []]]]; discriminate.
  - reflexivity.
Qed.

(** The C9 theorem at the same Arrow with the solid line style. *)
Lemma Arrow_unrecognised_head_draws_shaft_only_witness :
  exists a,
    sample_arrow "-" = Ok a
    /\ ~ In (Arrow.head_style a) ["triangle"; "stroke"; "arrow"]
    /\ str_in (Arrow.line_style a) (keys LINE_STYLES) = true
    /\ Arrow_draw_head sample_colors a = ([], Ok tt)
    /\ outcome (Arrow_draw sample_colors a) = Ok tt.
Proof.
  eexists. split; [reflexivity|].
  match goal with
  | |- ?P /\ _ =>
      assert (Hh : P)
        by (cbn; intros [H | [H | [H | []]]]; discriminate)
  end.
  split; [exact Hh|]. split; [reflexivity|].
  match goal with
  | |- Arrow_draw_head _ ?a = _ /\ _ =>
      destruct (Arrow_unrecognised_head_draws_shaft_only sample_colors a Hh)
        as (Hhead & Hdraw)
  end.
  split; [exact Hhead|].
  destruct (Hdraw eq_refl) as (_ & Hstroke).
  destruct (Hstroke "black" 0 0 0 eq_refl eq_refl) as (pattern & _ & ->).
  reflexivity.
Defined.

(* ====================================================================== *)
(** * Further properties: transformations.py *)

Section MoreTransformFacts.
Import transformations.

Ltac by_entries :=
  repeat match goal with
         | |- cons _ _ = cons _ _ => apply (f_equal2 (@cons _))
         | |- @nil _ = @nil _ => reflexivity
         end.

(** X1.  With an orientation of 0 degrees the transform is the identity
    matrix, whatever the pivot. *)
Theorem rotate_by_zero_is_identity :
  forall P Q : point,
    rotate_around_point (radians 0) P = Matrix 1 0 0 1 0 0
    /\ transform_point (rotate_around_point (radians 0) P) Q = Q.
Proof.
  intros [px py] [qx qy].
  assert (E : rotate_around_point (radians 0) (px, py) = Matrix 1 0 0 1 0 0).
  { rewrite rotate_around_point_coeffs. unfold radians.
    replace (0 * (PI / 180)) with 0 by ring. rewrite cos_0, sin_0.
    f_equal; ring. }
  split; [exact E|]. rewrite E. unfold transform_point; cbn.
  f_equal; ring.
Qed.

(** X2.  Two rotations about the same pivot compose into the rotation by
    the sum of the angles; in particular the rotation by [- theta] undoes
    the rotation by [theta]. *)
Theorem rotations_about_a_pivot_compose :
  forall (a b : R) (P Q : point),
    transform_point (rotate_around_point a P)
      (transform_point (rotate_around_point b P) Q)
    = transform_point (rotate_around_point (a + b) P) Q
    /\ transform_point (rotate_around_point (- a) P)
         (transform_point (rotate_around_point a P) Q) = Q.
Proof.
  intros a b [px py] [qx qy].
  rewrite !rotate_around_point_coeffs.
  unfold transform_point; cbn [xx xy yx yy x0 y0 fst snd]. split.
  - rewrite cos_plus, sin_plus. f_equal; ring.
  - rewrite cos_neg, sin_neg.
    pose proof (sin2_cos2 a) as H. unfold Rsqr in H.
    f_equal.
    + match goal with
      | |- ?l = _ =>
          replace l
            with (qx + (qx - px) * (sin a * sin a + cos a * cos a - 1))
            by ring
      end.
      rewrite H. ring.
    + match goal with
      | |- ?l = _ =>
          replace l
            with (qy + (qy - py) * (sin a * sin a + cos a * cos a - 1))
            by ring
      end.
      rewrite H. ring.
Qed.

(** X3.  The transform preserves distances. *)
Theorem rotate_around_point_isometry :
  forall (theta : R) (P A B : point),
    dist (transform_point (rotate_around_point theta P) A)
         (transform_point (rotate_around_point theta P) B)
    = dist A B.
Proof.
  intros theta [px py] [ax ay] [bx b_y].
  rewrite rotate_around_point_coeffs.
  unfold dist, transform_point; cbn [xx xy yx yy x0 y0 fst snd].
  f_equal.
  pose proof (sin2_cos2 theta) as H. unfold Rsqr in H.
  replace ((ax - bx) ^ 2 + (ay - b_y) ^ 2)
    with (((ax - bx) ^ 2 + (ay - b_y) ^ 2)
          * (sin theta * sin theta + cos theta * cos theta))
    by (rewrite H; ring).
  ring.
Qed.

(** X4.  For 3x3 arrays with bottom row [0, 0, 1], the cairo matrix of a
    product [A @ B] acts as the cairo matrix of [B] followed by that of
    [A]. *)
Theorem cairo_matrix_of_product :
  forall (a c e b d f a' c' e' b' d' f' : R) (p : point),
    let A := [ [a; c; e]; [b; d; f]; [0; 0; 1] ] in
    let B := [ [a'; c'; e']; [b'; d'; f']; [0; 0; 1] ] in
    transform_point (cairo_matrix (matmul A B)) p
    = transform_point (cairo_matrix A) (transform_point (cairo_matrix B) p)
    /\ nth 2 (matmul A B) [] = [0; 0; 1].
Proof.
  intros a c e b d f a' c' e' b' d' f' [x y] A B.
  unfold A, B, transform_point, cairo_matrix, at_; cbn. split.
  - f_equal; ring.
  - by_entries; ring.
Qed.

(** X5.  The three builders compose as expected under [@]: translations
    add, scalings multiply, rotations add their angles; and a scaling acts
    on a point componentwise. *)
Theorem builders_compose :
  (forall x y x' y',
      matmul (translation_matrix x y) (translation_matrix x' y')
      = translation_matrix (x + x') (y + y'))
  /\ (forall sx sy sx' sy',
      matmul (scale_matrix sx sy) (scale_matrix sx' sy')
      = scale_matrix (sx * sx') (sy * sy'))
  /\ (forall a b,
      matmul (rotation_matrix a) (rotation_matrix b)
      = rotation_matrix (a + b))
  /\ (forall sx sy x y,
      transform_point (cairo_matrix (scale_matrix sx sy)) (x, y)
      = (sx * x, sy * y)).
Proof.
  split; [|split; [|split]].
  - intros. unfold matmul, translation_matrix; cbn. by_entries; ring.
  - intros. unfold matmul, scale_matrix; cbn. by_entries; ring.
  - intros. unfold matmul, rotation_matrix; cbn.
    rewrite cos_plus, sin_plus. by_entries; ring.
  - intros. unfold transform_point, cairo_matrix, scale_matrix, at_; cbn.
    f_equal; ring.
Qed.

Lemma radians_180 : radians 180 = PI.
Proof. unfold radians. field. Qed.

Lemma radians_plus_360 d : radians (d + 360) = radians d + 2 * PI.
Proof. unfold radians. field. Qed.

(** X6.  The orientation is in degrees: adding 360 to it gives the same
    transform, and an orientation of 180 maps every point [Q] to its
    reflection [2P - Q] through the pivot. *)
Theorem orientation_is_in_degrees :
  forall (d : R) (P Q : point),
    rotate_around_point (radians (d + 360)) P
    = rotate_around_point (radians d) P
    /\ transform_point (rotate_around_point (radians 180) P) Q
       = vsub (vscale 2 P) Q.
Proof.
  intros d [px py] [qx qy]. split.
  - rewrite !rotate_around_point_coeffs, radians_plus_360.
    rewrite cos_plus, sin_plus, cos_2PI, sin_2PI. f_equal; ring.
  - rewrite rotate_around_point_coeffs, radians_180, cos_PI, sin_PI.
    unfold transform_point, vsub, vscale; cbn. f_equal; ring.
Qed.

End MoreTransformFacts.

(* ====================================================================== *)
(** * Further properties: paint_paths *)

Lemma getitem_Ok_in_keys {V} (d : dict V) (k : string) (v : V) :
  getitem d k = Ok v -> str_in k (keys d) = true.
Proof.
  induction d as [|[k' v'] d IH]; cbn; [discriminate|].
  destruct (String.eqb k k'); [reflexivity | exact IH].
Qed.

(** X7.  With a valid style and both colours resolved, [paint_paths] fills
    before it strokes: fill colour, [fill_preserve], then line colour, line
    width, the style's dash pattern scaled by the line width, the cap
    (round for the dotted styles, else the requested one), the join, and
    [stroke]; and it returns. *)
Theorem paint_paths_fills_then_strokes :
  forall (get_color : string -> result (R * R * R))
         (f l : string) (fr fg fb lr lg lb : R) (line_width : R)
         (line_style line_cap line_join : string) (opacity : R)
         (pattern : list R) (cap : LINE_CAP) (join : LINE_JOIN),
    getitem LINE_STYLES line_style = Ok pattern ->
    getitem LINE_CAPS line_cap = Ok cap ->
    getitem LINE_JOINS line_join = Ok join ->
    get_color f = Ok (fr, fg, fb) ->
    get_color l = Ok (lr, lg, lb) ->
    paint_paths get_color (Some f) (Some l) line_width line_style line_cap
      line_join opacity
    = ([ set_source_rgba fr fg fb opacity;
         fill_preserve;
         set_source_rgba lr lg lb opacity;
         set_line_width line_width;
         set_dash (map (fun i => line_width * i) pattern);
         set_line_cap (if str_in line_style ["."; "-."]
                       then LINE_CAP_ROUND else cap);
         set_line_join join;
         stroke ],
       Ok tt).
Proof.
  intros get_color f l fr fg fb lr lg lb line_width line_style line_cap
         line_join opacity pattern cap join Hs Hc Hj Hf Hl.
  assert (E : style_error line_style line_cap line_join = None).
  { apply style_error_None.
    repeat split; eapply getitem_Ok_in_keys; eassumption. }
  unfold paint_paths, set_source. rewrite E, Hf, Hl, Hs, Hc, Hj.
  destruct (str_in line_style ["."; "-."]); reflexivity.
Qed.

(** The theorem at a dashed gold-filled path with a square cap. *)
Lemma paint_paths_fills_then_strokes_witness :
  getitem LINE_STYLES "--" = Ok [4; 1]
  /\ getitem LINE_CAPS "square" = Ok LINE_CAP_SQUARE
  /\ getitem LINE_JOINS "round" = Ok LINE_JOIN_ROUND
  /\ sample_colors "gold" = Ok (1, 215 / 255, 0)
  /\ sample_colors "black" = Ok (0, 0, 0)
  /\ outcome (paint_paths sample_colors (Some "gold") (Some "black") 3 "--"
                "square" "round" 1) = Ok tt.
Proof.
  repeat (split; [reflexivity|]).
  rewrite (paint_paths_fills_then_strokes sample_colors "gold" "black"
             1 (215 / 255) 0 0 0 0 3 "--" "square" "round" 1 [4; 1]
             LINE_CAP_SQUARE LINE_JOIN_ROUND eq_refl eq_refl eq_refl eq_refl
             eq_refl).
  reflexivity.
Defined.

(** X8.  For the dotted and dash-dot styles every [set_line_cap] that
    [paint_paths] issues is the round cap, whatever [line_cap] was
    requested and whatever the colours. *)
Theorem dotted_styles_force_round_cap :
  forall (get_color : string -> result (R * R * R))
         (fill_color line_color : color) (line_width : R)
         (line_style line_cap line_join : string) (opacity : R)
         (c : LINE_CAP),
    In line_style ["."; "-."] ->
    In (set_line_cap c)
       (calls (paint_paths get_color fill_color line_color line_width
                 line_style line_cap line_join opacity)) ->
    c = LINE_CAP_ROUND.
Proof.
  intros get_color fill_color line_color line_width line_style line_cap
         line_join opacity c Hs.
  apply str_in_In in Hs.
  unfold paint_paths, set_source. rewrite Hs.
  destruct (style_error line_style line_cap line_join);
    [intros []|].
  destruct fill_color as [f|], line_color as [l|];
    try destruct (get_color f) as [[[r g] b]|ef];
    try destruct (get_color l) as [[[r' g'] b']|el];
    try destruct (getitem LINE_STYLES line_style) as [pat|e1];
    try destruct (getitem LINE_JOINS line_join) as [join|e3];
    cbn; intros H;
    repeat (destruct H as [H | H]; [try discriminate|]);
    try contradiction; congruence.
Qed.

(** The theorem at a dotted stroke requested with a butt cap. *)
Lemma dotted_styles_force_round_cap_witness :
  In "." ["."; "-."]
  /\ In (set_line_cap LINE_CAP_ROUND)
        (calls (paint_paths sample_colors None (Some "black") 1 "." "butt"
                  "bevel" 1))
  /\ (In (set_line_cap LINE_CAP_BUTT)
         (calls (paint_paths sample_colors None (Some "black") 1 "." "butt"
                   "bevel" 1)) -> False).
Proof.
  assert (Hs : In "." ["."; "-."]) by now left.
  split; [exact Hs|]. split.
  - cbn. do 3 right. now left.
  - intros H.
    pose proof (dotted_styles_force_round_cap sample_colors None
                  (Some "black") 1 "." "butt" "bevel" 1 LINE_CAP_BUTT Hs H).
    discriminate.
Defined.



Lemma paint_paths_without_fill_color get_color line_color line_width
    line_style line_cap line_join opacity :
  ~ In fill_preserve
       (calls (paint_paths get_color None line_color line_width line_style
                 line_cap line_join opacity)).
Proof.
  unfold paint_paths, set_source.
  destruct (style_error line_style line_cap line_join); [intros []|].
  destruct line_color as [l|];
    try destruct (get_color l) as [[[r' g'] b']|el];
    try destruct (getitem LINE_STYLES line_style) as [pat|e1];
    try destruct (str_in line_style ["."; "-."]);
    try destruct (getitem LINE_CAPS line_cap) as [cap|e2];
    try destruct (getitem LINE_JOINS line_join) as [join|e3];
    cbn; intros H;
    repeat (destruct H as [H | H]; [discriminate|]); contradiction.
Qed.

(** X10.  [Lines.draw] never fills: whatever the object and the colours,
    no [fill_preserve] reaches the surface. *)
Theorem Lines_draw_never_fills :
  forall (get_color : string -> result (R * R * R)) (self : Lines.t),
    ~ In fill_preserve (calls (Lines_draw get_color self)).
Proof.
  intros get_color self. unfold Lines_draw, save_and_rotate.
  pose proof (paint_paths_without_fill_color get_color (Lines.line_color self)
                (Lines.line_width self) (Lines.line_style self)
                (Lines.line_cap self) (Lines.line_join self)
                (Lines.opacity self)) as Hp.
  destruct (Lines.points self) as [|p ps].
  - rewrite trace_points_nil. cbn. intros [H | [H | []]]; discriminate.
  - rewrite trace_points_cons.
    destruct (paint_paths get_color None _ _ _ _ _ _) as [tp [[]|e]];
      cbn [calls fst] in Hp; cbn; intros H;
      repeat (destruct H as [H | H]; [discriminate|]);
      repeat (apply in_app_or in H; destruct H as [H | H]);
      try (apply in_map_iff in H; destruct H as (q & Hq & _); discriminate);
      try (now apply Hp);
      try (destruct H as [H | []]; discriminate).
Qed.

(* ====================================================================== *)
(** * Further properties: drawing the shapes *)

Section MoreDrawFacts.

Variable get_color : string -> result (R * R * R).

Lemma paint_paths_path_free fill_color line_color line_width line_style
    line_cap line_join opacity :
  filter is_path
    (calls (paint_paths get_color fill_color line_color line_width line_style
              line_cap line_join opacity)) = [].
Proof.
  pose proof (paint_paths_calls get_color fill_color line_color line_width
                line_style line_cap line_join opacity) as H.
  induction H as [|c t Hc _ IH]; [reflexivity|].
  cbn [filter]. destruct c; try discriminate; exact IH.
Qed.

Lemma filter_path_line_to (ps : list point) :
  filter is_path (map (fun q : point => line_to (fst q) (snd q)) ps)
  = map (fun q : point => line_to (fst q) (snd q)) ps.
Proof. induction ps as [|q ps IH]; [reflexivity|]. cbn. now rewrite IH. Qed.

Hypothesis colours_resolve : forall name, exists rgb, get_color name = Ok rgb.

Lemma paint_paths_returns fill_color line_color line_width line_style
    line_cap line_join opacity :
  style_error line_style line_cap line_join = None ->
  exists tp,
    paint_paths get_color fill_color line_color line_width line_style
      line_cap line_join opacity = (tp, Ok tt).
Proof.
  intros E. pose proof E as E'. apply style_error_None in E'.
  destruct E' as (Hs & Hc & Hj).
  destruct (getitem_in_keys LINE_STYLES line_style Hs) as [pat Hp].
  destruct (getitem_in_keys LINE_CAPS line_cap Hc) as [cap Hcap].
  destruct (getitem_in_keys LINE_JOINS line_join Hj) as [join Hjoin].
  unfold paint_paths, set_source. rewrite E.
  destruct fill_color as [f|], line_color as [l|];
    try (destruct (colours_resolve f) as [[[r g] b] ->]);
    try (destruct (colours_resolve l) as [[[r' g'] b'] ->]);
    rewrite ?Hp, ?Hjoin;
    try destruct (str_in line_style ["."; "-."]);
    rewrite ?Hcap; cbn; eauto.
Qed.

Lemma draw_returns_with_valid_style (s : shape) :
  is_Arrow s = false -> well_formed s = true -> invalid_style s = None ->
  outcome (draw get_color s) = Ok tt.
Proof.
  unfold invalid_style.
  destruct s; cbn [is_Arrow well_formed style_of draw]; intros Ha Hw He;
    try discriminate.
  - unfold Circle_draw, save_and_rotate.
    destruct (paint_paths_returns (Circle.fill_color c) (Circle.line_color c)
                (Circle.line_width c) _ _ _ (Circle.opacity c) He) as [tp ->].
    reflexivity.
  - unfold Rectangle_draw, save_and_rotate.
    destruct (paint_paths_returns (Rectangle.fill_color r)
                (Rectangle.line_color r) (Rectangle.line_width r) _ _ _
                (Rectangle.opacity r) He) as [tp ->].
    reflexivity.
  - apply nonempty_cons in Hw. destruct Hw as (p & ps & Hp).
    unfold Lines_draw, save_and_rotate. rewrite Hp, trace_points_cons.
    destruct (paint_paths_returns None (Lines.line_color l)
                (Lines.line_width l) _ _ _ (Lines.opacity l) He) as [tp ->].
    reflexivity.
  - apply nonempty_cons in Hw. destruct Hw as (q & qs & Hp).
    unfold Polygon_draw, save_and_rotate. rewrite Hp, trace_points_cons.
    destruct (paint_paths_returns (Polygon.fill_color p)
                (Polygon.line_color p) (Polygon.line_width p) _ _ _
                (Polygon.opacity p) He) as [tp ->].
    reflexivity.
  - apply nonempty_cons in Hw. destruct Hw as (q & qs & Hp).
    unfold RegularPolygon_draw. rewrite Hp.
    destruct (Polygon_init_ok q qs (RegularPolygon.orientation p)
                (RegularPolygon.fill_color p) (RegularPolygon.line_color p)
                (RegularPolygon.line_style p) (RegularPolygon.line_width p)
                (RegularPolygon.line_cap p) (RegularPolygon.line_join p)
                (RegularPolygon.opacity p))
      as (g & -> & Hpts & Hs & Hc & Hj & _).
    rewrite bind_lift_Ok. unfold Polygon_draw, save_and_rotate.
    cbn [Polygon.set_position Polygon.points Polygon.line_style
         Polygon.line_cap Polygon.line_join Polygon.fill_color
         Polygon.line_color Polygon.line_width Polygon.opacity
         Polygon.orientation Polygon.position].
    rewrite Hpts, trace_points_cons, Hs, Hc, Hj.
    destruct (paint_paths_returns (Polygon.fill_color g)
                (Polygon.line_color g) (Polygon.line_width g) _ _ _
                (Polygon.opacity g) He) as [tp ->].
    reflexivity.
  - apply nonempty_cons in Hw. destruct Hw as (q & qs & Hp).
    unfold Star_draw. rewrite Hp.
    destruct (Polygon_init_ok q qs (Star.orientation s) (Star.fill_color s)
                (Star.line_color s) (Star.line_style s) (Star.line_width s)
                (Star.line_cap s) (Star.line_join s) (Star.opacity s))
      as (g & -> & Hpts & Hs & Hc & Hj & _).
    rewrite bind_lift_Ok. unfold Polygon_draw, save_and_rotate.
    cbn [Polygon.set_position Polygon.points Polygon.line_style
         Polygon.line_cap Polygon.line_join Polygon.fill_color
         Polygon.line_color Polygon.line_width Polygon.opacity
         Polygon.orientation Polygon.position].
    rewrite Hpts, trace_points_cons, Hs, Hc, Hj.
    destruct (paint_paths_returns (Polygon.fill_color g)
                (Polygon.line_color g) (Polygon.line_width g) _ _ _
                (Polygon.opacity g) He) as [tp ->].
    reflexivity.
  - unfold RoundedRectangle_draw, save_and_rotate.
    destruct (RoundedRectangle.corner_radius r) as [cr|]; [|discriminate].
    destruct (paint_paths_returns (RoundedRectangle.fill_color r)
                (RoundedRectangle.line_color r)
                (RoundedRectangle.line_width r) _ _ _
                (RoundedRectangle.opacity r) He) as [tp ->].
    reflexivity.
Qed.

End MoreDrawFacts.

(** X11.  When every colour name resolves, a shape other than an Arrow
    whose attributes let [draw] reach [paint_paths] is drawn without error
    exactly when its line style, cap and join are all valid. *)
Theorem draw_returns_iff_style_valid :
  forall (get_color : string -> result (R * R * R)) (s : shape),
    (forall name, exists rgb, get_color name = Ok rgb) ->
    is_Arrow s = false ->
    well_formed s = true ->
    (outcome (draw get_color s) = Ok tt <-> invalid_style s = None).
Proof.
  intros get_color s Hcol Ha Hw. split.
  - intros Hok. destruct (invalid_style s) as [e|] eqn:He; [|reflexivity].
    destruct (draw_invalid_style_setup get_color s e Ha Hw He) as [Hr _].
    rewrite Hr in Hok. discriminate.
  - now apply draw_returns_with_valid_style.
Qed.

(** The theorem at a Rectangle with the join "mitter". *)
Lemma draw_returns_iff_style_valid_witness :
  (forall name, exists rgb, all_black name = Ok rgb)
  /\ is_Arrow (a_Rectangle (sample_rectangle "mitter")) = false
  /\ well_formed (a_Rectangle (sample_rectangle "mitter")) = true
  /\ outcome (draw all_black (a_Rectangle (sample_rectangle "mitter")))
     = Ok tt.
Proof.
  assert (Hc : forall name, exists rgb, all_black name = Ok rgb)
    by (intros name; now exists (0, 0, 0)).
  split; [exact Hc|]. split; [reflexivity|]. split; [reflexivity|].
  apply (draw_returns_iff_style_valid all_black
           (a_Rectangle (sample_rectangle "mitter")) Hc eq_refl eq_refl).
  reflexivity.
Defined.

Lemma Polygon_draw_path (get_color : string -> result (R * R * R))
    (self : Polygon.t) (p : point) (ps : list point) :
  Polygon.points self = p :: ps ->
  filter is_path (calls (Polygon_draw get_color self))
  = move_to (fst p) (snd p)
    :: map (fun q => line_to (fst q) (snd q)) ps ++ [close_path].
Proof.
  intros Hpts.
  unfold Polygon_draw, save_and_rotate. rewrite Hpts, trace_points_cons.
  pose proof (paint_paths_path_free get_color (Polygon.fill_color self)
                (Polygon.line_color self) (Polygon.line_width self)
                (Polygon.line_style self) (Polygon.line_cap self)
                (Polygon.line_join self) (Polygon.opacity self)) as Hp.
  destruct (paint_paths get_color _ _ _ _ _ _ _) as [tp [[]|e]];
    cbn [calls fst] in Hp; cbn -[filter];
    cbn [filter is_path]; rewrite !filter_app, filter_path_line_to;
    cbn [filter is_path]; rewrite ?filter_app, Hp; reflexivity.
Qed.

Lemma Lines_draw_path (get_color : string -> result (R * R * R))
    (self : Lines.t) (p : point) (ps : list point) :
  Lines.points self = p :: ps ->
  filter is_path (calls (Lines_draw get_color self))
  = move_to (fst p) (snd p) :: map (fun q => line_to (fst q) (snd q)) ps.
Proof.
  intros Hpts.
  unfold Lines_draw, save_and_rotate. rewrite Hpts, trace_points_cons.
  pose proof (paint_paths_path_free get_color None
                (Lines.line_color self) (Lines.line_width self)
                (Lines.line_style self) (Lines.line_cap self)
                (Lines.line_join self) (Lines.opacity self)) as Hp.
  destruct (paint_paths get_color _ _ _ _ _ _ _) as [tp [[]|e]];
    cbn [calls fst] in Hp; cbn -[filter];
    cbn [filter is_path]; rewrite !filter_app, filter_path_line_to;
    rewrite ?filter_app, Hp; cbn [filter is_path];
    rewrite ?app_nil_r; reflexivity.
Qed.

(** X12.  The path that [Polygon.draw] builds from the points
    [p :: ps] is [move_to p], a [line_to] for each further point in order,
    and [close_path]; [Lines.draw] builds the same path without the
    [close_path].  This holds whether or not the painting then raises. *)
Theorem Polygon_and_Lines_paths :
  forall (get_color : string -> result (R * R * R))
         (p : point) (ps : list point) (orientation : R)
         (fill_color line_color : color) (line_style : string)
         (line_width : R) (line_cap line_join : string) (opacity : R),
    (exists self,
        Polygon_init (p :: ps) orientation fill_color line_color line_style
          line_width line_cap line_join opacity = Ok self
        /\ filter is_path (calls (Polygon_draw get_color self))
           = move_to (fst p) (snd p)
             :: map (fun q => line_to (fst q) (snd q)) ps ++ [close_path])
    /\ (exists self,
        Lines_init (p :: ps) orientation line_color line_style line_width
          line_cap line_join opacity = Ok self
        /\ filter is_path (calls (Lines_draw get_color self))
           = move_to (fst p) (snd p)
             :: map (fun q => line_to (fst q) (snd q)) ps).
Proof.
  intros. split.
  - destruct (Polygon_init_ok p ps orientation fill_color line_color
                line_style line_width line_cap line_join opacity)
      as (self & E & Hpts & _).
    exists self. split; [exact E | now apply Polygon_draw_path].
  - destruct (Lines_init_ok p ps orientation line_color line_style
                line_width line_cap line_join opacity)
      as (self & E & Hpts & _).
    exists self. split; [exact E | now apply Lines_draw_path].
Qed.


Lemma Polygon_init_orientation points orientation fill_color line_color
    line_style line_width line_cap line_join opacity self :
  Polygon_init points orientation fill_color line_color line_style line_width
    line_cap line_join opacity = Ok self ->
  Polygon.points self = points /\ Polygon.orientation self = orientation
  /\ Polygon.fill_color self = fill_color
  /\ Polygon.line_color self = line_color
  /\ Polygon.line_width self = line_width
  /\ Polygon.opacity self = opacity.
Proof.
  unfold Polygon_init.
  destruct (bounding_fields points) as [[[[[a b] c] d] e]|]; [|discriminate].
  cbn [rbind]. intros [= <-]. cbn. auto 10.
Qed.








(** X14.  [Rectangle.draw] emits a rectangle of the given width and
    height whose centre is [position], after a rotation that leaves that
    centre in place. *)
Theorem Rectangle_is_centred_on_position :
  forall (get_color : string -> result (R * R * R)) (self : Rectangle.t),
    exists x y rest,
      calls (Rectangle_draw get_color self)
      = save
        :: transform (transformations.rotate_around_point
                        (radians (Rectangle.orientation self))
                        (Rectangle.position self))
        :: rectangle x y (Rectangle.width self) (Rectangle.height self)
        :: rest
      /\ (x + Rectangle.width self / 2, y + Rectangle.height self / 2)
         = Rectangle.position self
      /\ transformations.transform_point
           (transformations.rotate_around_point
              (radians (Rectangle.orientation self))
              (Rectangle.position self))
           (x + Rectangle.width self / 2, y + Rectangle.height self / 2)
         = (x + Rectangle.width self / 2, y + Rectangle.height self / 2).
Proof.
  intros get_color self. unfold Rectangle_draw, save_and_rotate.
  destruct (Rectangle.position self) as [px py] eqn:Hpos.
  exists (px - Rectangle.width self / 2), (py - Rectangle.height self / 2).
  assert (Hc : (px - Rectangle.width self / 2 + Rectangle.width self / 2,
                py - Rectangle.height self / 2 + Rectangle.height self / 2)
               = (px, py)) by (f_equal; field).
  destruct (paint_paths get_color _ _ _ _ _ _ _) as [tp [[]|e]];
    cbn [bind emit calls fst snd app]; eexists;
    (split; [reflexivity|]); (split; [exact Hc|]);
    rewrite Hc, rotate_around_point_coeffs;
    unfold transformations.transform_point; cbn; f_equal; ring.
Qed.

(** X15.  A RoundedRectangle left with the default [corner_radius=None]
    cannot be drawn: [draw] raises [TypeError] right after [save] and
    [transform], before any path call and without a [restore]. *)
Theorem RoundedRectangle_without_radius_raises :
  forall (get_color : string -> result (R * R * R))
         (self : RoundedRectangle.t),
    RoundedRectangle.corner_radius self = None ->
    RoundedRectangle_draw get_color self
    = ([ save;
         transform (transformations.rotate_around_point
                      (radians (RoundedRectangle.orientation self))
                      (RoundedRectangle.position self)) ],
       Raise TypeError).
Proof.
  intros get_color self H. unfold RoundedRectangle_draw, save_and_rotate.
  rewrite H. reflexivity.
Qed.

(** The theorem at a rounded rectangle built without a corner radius. *)
Lemma RoundedRectangle_without_radius_raises_witness :
  outcome (RoundedRectangle_draw sample_colors
             (RoundedRectangle.mk (500, 500) 700 250 None 0 (Some "black") 1
                "-" "butt" "mitter" None 1))
  = Raise TypeError.
Proof.
  rewrite (RoundedRectangle_without_radius_raises sample_colors
             (RoundedRectangle.mk (500, 500) 700 250 None 0 (Some "black") 1
                "-" "butt" "mitter" None 1) eq_refl).
  reflexivity.
Defined.

Lemma cos_3PI2' : cos (3 * PI / 2) = 0.
Proof. replace (3 * PI / 2) with (3 * (PI / 2)) by field. apply cos_3PI2. Qed.

Lemma sin_3PI2' : sin (3 * PI / 2) = -1.
Proof. replace (3 * PI / 2) with (3 * (PI / 2)) by field. apply sin_3PI2. Qed.

(** X16.  The outline of a RoundedRectangle is continuous: the path moves
    to the start of the first arc, each [line_to] ends exactly where the
    following arc starts, each arc sweeps a quarter turn about a centre
    inset by the corner radius from a corner of the [width] x [height]
    box centred at [position], and [close_path] ends it. *)
Theorem RoundedRectangle_outline_is_continuous :
  forall (get_color : string -> result (R * R * R))
         (self : RoundedRectangle.t) (cr : R),
    RoundedRectangle.corner_radius self = Some cr ->
    let px := fst (RoundedRectangle.position self) in
    let py := snd (RoundedRectangle.position self) in
    let w := RoundedRectangle.width self in
    let h := RoundedRectangle.height self in
    let c1 := (px + w / 2 - cr, py + h / 2 - cr) in
    let c2 := (px - w / 2 + cr, py + h / 2 - cr) in
    let c3 := (px - w / 2 + cr, py - h / 2 + cr) in
    let c4 := (px + w / 2 - cr, py - h / 2 + cr) in
    exists s1 s2 s3 s4,
      filter is_path (calls (RoundedRectangle_draw get_color self))
      = [ move_to (fst s1) (snd s1);
          arc (fst c1) (snd c1) cr 0 (PI / 2);
          line_to (fst s2) (snd s2);
          arc (fst c2) (snd c2) cr (PI / 2) PI;
          line_to (fst s3) (snd s3);
          arc (fst c3) (snd c3) cr PI (3 * PI / 2);
          line_to (fst s4) (snd s4);
          arc (fst c4) (snd c4) cr (3 * PI / 2) (2 * PI);
          close_path ]
      /\ s1 = polar c1 cr 0
      /\ s2 = polar c2 cr (PI / 2)
      /\ s3 = polar c3 cr PI
      /\ s4 = polar c4 cr (3 * PI / 2)
      /\ snd (polar c1 cr (PI / 2)) = snd s2
      /\ fst (polar c2 cr PI) = fst s3
      /\ snd (polar c3 cr (3 * PI / 2)) = snd s4
      /\ fst (polar c4 cr (2 * PI)) = fst s1.
Proof.
  intros get_color self cr Hcr px py w h c1 c2 c3 c4.
  exists (polar c1 cr 0), (polar c2 cr (PI / 2)), (polar c3 cr PI),
         (polar c4 cr (3 * PI / 2)).
  split.
  - unfold RoundedRectangle_draw, save_and_rotate. rewrite Hcr.
    cbn [number lift]. rewrite bind_lift_Ok.
    pose proof (paint_paths_path_free get_color
                  (RoundedRectangle.fill_color self)
                  (RoundedRectangle.line_color self)
                  (RoundedRectangle.line_width self)
                  (RoundedRectangle.line_style self)
                  (RoundedRectangle.line_cap self)
                  (RoundedRectangle.line_join self)
                  (RoundedRectangle.opacity self)) as Hp.
    unfold polar, vadd, vscale, c1, c2, c3, c4, px, py, w, h.
    cbn [fst snd].
    rewrite cos_0, sin_0, cos_PI2, sin_PI2, cos_PI, sin_PI, cos_3PI2',
      sin_3PI2'.
    destruct (paint_paths get_color _ _ _ _ _ _ _) as [tp [[]|e]];
      cbn [calls fst] in Hp;
      cbn [bind emit calls fst snd app filter is_path];
      rewrite ?filter_app, Hp; cbn [filter is_path app];
      repeat (apply (f_equal2 (@cons call)); [f_equal; field|]);
      reflexivity.
  - unfold polar, vadd, vscale, c1, c2, c3, c4. cbn [fst snd].
    rewrite ?cos_0, ?sin_0, ?cos_PI2, ?sin_PI2, ?cos_PI, ?sin_PI,
      ?cos_3PI2', ?sin_3PI2', ?cos_2PI, ?sin_2PI.
    repeat split; ring.
Qed.

(** The theorem at a 700 x 250 rounded rectangle of corner radius 50. *)
Lemma RoundedRectangle_outline_is_continuous_witness :
  exists s1,
    s1 = polar (500 + 700 / 2 - 50, 500 + 250 / 2 - 50) 50 0
    /\ In (move_to (fst s1) (snd s1))
          (calls (RoundedRectangle_draw sample_colors
                    (RoundedRectangle.mk (500, 500) 700 250 (Some 50) 0
                       (Some "black") 1 "-" "butt" "mitter" None 1))).
Proof.
  destruct (RoundedRectangle_outline_is_continuous sample_colors
              (RoundedRectangle.mk (500, 500) 700 250 (Some 50) 0
                 (Some "black") 1 "-" "butt" "mitter" None 1) 50 eq_refl)
    as (s1 & s2 & s3 & s4 & Hpath & H1 & _).
  exists s1. split; [exact H1|].
  cbn [RoundedRectangle.position RoundedRectangle.width
       RoundedRectangle.height fst snd] in Hpath.
  apply (filter_In is_path).
  rewrite Hpath. now left.
Defined.

(* ====================================================================== *)
(** * Further properties: Arrow *)

Lemma sqrt_scaled (k a b : R) :
  sqrt ((k * a) ^ 2 + (k * b) ^ 2) = Rabs k * sqrt (a ^ 2 + b ^ 2).
Proof.
  replace ((k * a) ^ 2 + (k * b) ^ 2) with (Rsqr k * (a ^ 2 + b ^ 2))
    by (unfold Rsqr; ring).
  rewrite sqrt_mult_alt by apply Rle_0_sqr.
  now rewrite sqrt_Rsqr_abs.
Qed.

Lemma Arrow_init_points origin vector head_style head_length head_width
    min_head_length line_color line_style line_width opacity self :
  Arrow_init origin vector head_style head_length head_width min_head_length
    line_color line_style line_width opacity = Ok self ->
  let L := sqrt (fst vector ^ 2 + snd vector ^ 2) in
  let n := vdiv (- snd vector, fst vector) L in
  let hl := Arrow.head_length self in
  let hw := Arrow.head_width self in
  Arrow.arrow_head_points self
  = [ vadd origin vector;
      vadd (vadd origin (vscale (1 - hl) vector))
           (vscale_r (vscale_r n (hw / 2)) L);
      vadd origin (vscale (1 - 8 / 10 * hl) vector);
      vsub (vadd origin (vscale (1 - hl) vector))
           (vscale_r (vscale_r n (hw / 2)) L) ]
  /\ Arrow.opacity self = opacity
  /\ Arrow.line_width self = line_width.
Proof.
  unfold Arrow_init.
  destruct (adjust_head _ head_length head_width min_head_length)
    as [[hl' hw']|]; [|discriminate].
  cbn [rbind]. intros [= <-]. cbn. auto.
Qed.

(** X17.  The head of a constructed Arrow with a non-zero vector, in exact
    arithmetic, with [hl] and [hw] the effective head length and width and
    [L = |vector|]: the four head points are the tip [origin + vector], a
    back corner, the notch [origin + (1 - 0.8 hl) vector] and the other
    back corner; the back corners are symmetric about the shaft point
    [base = origin + (1 - hl) vector], their offset from it is
    perpendicular to the vector, they are [|hw| * L] apart, and the tip is
    [|hl| * L] from [base]. *)
Theorem Arrow_head_geometry :
  forall origin vector head_style head_length head_width min_head_length
         line_color line_style line_width opacity self,
    Arrow_init origin vector head_style head_length head_width
      min_head_length line_color line_style line_width opacity = Ok self ->
    vector <> (0, 0) ->
    let L := sqrt (fst vector ^ 2 + snd vector ^ 2) in
    let hl := Arrow.head_length self in
    let hw := Arrow.head_width self in
    let base := vadd origin (vscale (1 - hl) vector) in
    exists corner1 corner3,
      Arrow.arrow_head_points self
      = [ vadd origin vector; corner1;
          vadd origin (vscale (1 - 8 / 10 * hl) vector); corner3 ]
      /\ vadd corner1 corner3 = vscale 2 base
      /\ fst (vsub corner1 base) * fst vector
         + snd (vsub corner1 base) * snd vector = 0
      /\ dist corner1 corner3 = Rabs hw * L
      /\ dist (vadd origin vector) base = Rabs hl * L.
Proof.
  intros origin [vx vy] head_style head_length head_width min_head_length
         line_color line_style line_width opacity self E Hv L hl hw base.
  apply Arrow_init_points in E. destruct E as (E & _).
  cbv zeta in E. fold hl hw in E. cbn [fst snd] in E, L. fold L in E.
  assert (HL : L <> 0).
  { intros H0. apply Hv. unfold L in H0. apply sqrt_eq_0 in H0; [|nra].
    f_equal; nra. }
  do 2 eexists. split; [exact E|].
  destruct origin as [ox oy].
  unfold base, vadd, vsub, vscale, vscale_r, vdiv, dist; cbn [fst snd].
  split; [f_equal; field; exact HL|].
  split; [field; exact HL|].
  split.
  - replace ((ox + (1 - hl) * vx + - vy / L * (hw / 2) * L
              - (ox + (1 - hl) * vx - - vy / L * (hw / 2) * L)) ^ 2
             + (oy + (1 - hl) * vy + vx / L * (hw / 2) * L
                - (oy + (1 - hl) * vy - vx / L * (hw / 2) * L)) ^ 2)
      with ((hw * vy) ^ 2 + (hw * vx) ^ 2) by (field; exact HL).
    rewrite sqrt_scaled. unfold L. do 2 f_equal. ring.
  - replace ((ox + vx - (ox + (1 - hl) * vx)) ^ 2
             + (oy + vy - (oy + (1 - hl) * vy)) ^ 2)
      with ((hl * vx) ^ 2 + (hl * vy) ^ 2) by ring.
    now rewrite sqrt_scaled.
Qed.

(** The theorem at an arrow along (3, 4) with the default head. *)
Lemma Arrow_head_geometry_witness :
  exists self,
    Arrow_init (0, 0) (3, 4) "triangle" (1 / 10) (1 / 10) None (Some "black")
      "-" 1 1 = Ok self
    /\ (3, 4) <> (0, 0)
    /\ exists corner1 corner3,
         nth_error (Arrow.arrow_head_points self) 1 = Some corner1
         /\ nth_error (Arrow.arrow_head_points self) 3 = Some corner3
         /\ dist corner1 corner3 = Rabs (Arrow.head_width self) * 5.
Proof.
  eexists. split; [reflexivity|].
  assert (Hv : (3, 4) <> (0, 0)) by (intros [= H _]; lra).
  split; [exact Hv|].
  match goal with
  | |- context [Arrow.arrow_head_points ?a] =>
      destruct (Arrow_head_geometry (0, 0) (3, 4) "triangle" (1 / 10)
                  (1 / 10) None (Some "black") "-" 1 1 a eq_refl Hv)
        as (c1 & c3 & Hpts & _ & _ & Hd & _)
  end.
  exists c1, c3. rewrite Hpts. split; [reflexivity|].
  split; [reflexivity|].
  cbn [fst snd] in Hd. rewrite sqrt_3_4 in Hd. exact Hd.
Defined.

(** X18.  With [min_head_length] set, the head of a constructed Arrow is
    never shorter, in absolute length, than the smaller of the minimum and
    the arrow's own length. *)
Theorem Arrow_head_at_least_min_head_length :
  forall origin vector head_style head_length head_width m line_color
         line_style line_width opacity self,
    truthy (Some m) = true ->
    Arrow_init origin vector head_style head_length head_width (Some m)
      line_color line_style line_width opacity = Ok self ->
    Rmin (Arrow.length self) m
    <= Arrow.head_length self * Arrow.length self.
Proof.
  intros origin vector head_style hl hw m line_color line_style line_width
         opacity self Ht E.
  apply Arrow_init_inv in E. destruct E as (E & HL & _).
  rewrite HL. set (L := sqrt (fst vector ^ 2 + snd vector ^ 2)) in *.
  apply (adjust_head_set _ _ _ _ _ _ Ht) in E.
  destruct E as (B1 & B2 & B3).
  destruct (Rlt_dec L m) as [H1|H1].
  - destruct (B1 H1) as (_ & -> & _). rewrite Rmult_1_l. apply Rmin_l.
  - destruct (Rlt_dec (hl * L) m) as [H2|H2].
    + destruct (B2 H1 H2) as (_ & HL0 & -> & _).
      replace (m / L * L) with m by (field; exact HL0). apply Rmin_r.
    + destruct (B3 H1 H2) as (-> & _).
      apply Rle_trans with m; [apply Rmin_r | lra].
Qed.

(** The theorem at the test suite's arrow settings. *)
Lemma Arrow_head_at_least_min_head_length_witness :
  truthy (Some 20) = true
  /\ exists self,
       Arrow_init (0, 0) (3, 4) "arrow" (1 / 10) (5 / 100) (Some 20)
         (Some "black") "." 1 1 = Ok self
       /\ Rmin (Arrow.length self) 20
          <= Arrow.head_length self * Arrow.length self.
Proof.
  assert (T : truthy (Some 20) = true) by (apply truthy_Some; lra).
  split; [exact T|].
  destruct (Arrow_init_returns (0, 0) (3, 4) "arrow" (1 / 10) (5 / 100)
              (Some 20) (Some "black") "." 1 1 ltac:(lra)) as [self E].
  exists self. split; [exact E|].
  exact (Arrow_head_at_least_min_head_length _ _ _ _ _ _ _ _ _ _ _ T E).
Defined.

(** X19.  Without a minimum head length ([None], or 0, which Python's [if]
    takes as false) the constructor always returns and keeps the requested
    head length and width, even a head length of 0. *)
Theorem Arrow_without_min_head_length_keeps_head :
  forall origin vector head_style head_length head_width min_head_length
         line_color line_style line_width opacity,
    truthy min_head_length = false ->
    exists self,
      Arrow_init origin vector head_style head_length head_width
        min_head_length line_color line_style line_width opacity = Ok self
      /\ Arrow.head_length self = head_length
      /\ Arrow.head_width self = head_width.
Proof.
  intros origin vector head_style hl hw min_head_length line_color
         line_style line_width opacity Ht.
  unfold Arrow_init, adjust_head. rewrite Ht.
  destruct min_head_length as [m|]; cbn [rbind];
    eexists; (split; [reflexivity|]); cbn; auto.
Qed.

(** The theorem at a minimum head length of 0 and a head length of 0. *)
Lemma Arrow_without_min_head_length_keeps_head_witness :
  truthy (Some 0) = false
  /\ exists self,
       Arrow_init (0, 0) (3, 4) "triangle" 0 (1 / 10) (Some 0)
         (Some "black") "-" 1 1 = Ok self
       /\ Arrow.head_length self = 0.
Proof.
  assert (T : truthy (Some 0) = false).
  { destruct (truthy (Some 0)) eqn:E; [|reflexivity].
    apply truthy_Some in E. now elim E. }
  split; [exact T|].
  destruct (Arrow_without_min_head_length_keeps_head (0, 0) (3, 4) "triangle"
              0 (1 / 10) (Some 0) (Some "black") "-" 1 1 T)
    as (self & E & Hl & _).
  exists self. split; assumption.
Defined.

(** X20.  With a positive minimum head length, a head length of 0 makes
    the constructor raise [ZeroDivisionError], whatever the vector. *)
Theorem Arrow_zero_head_length_raises :
  forall origin vector head_style head_width m line_color line_style
         line_width opacity,
    0 < m ->
    Arrow_init origin vector head_style 0 head_width (Some m) line_color
      line_style line_width opacity = Raise ZeroDivisionError.
Proof.
  intros origin vector head_style hw m line_color line_style line_width
         opacity Hm.
  assert (Ht : truthy (Some m) = true) by (apply truthy_Some; lra).
  unfold Arrow_init, adjust_head. rewrite Ht, pydiv_zero.
  destruct (Rlt_dec _ m) as [H1|H1]; [reflexivity|].
  destruct (Rlt_dec _ m) as [H2|H2]; [reflexivity|].
  elim H2. rewrite Rmult_0_l. exact Hm.
Qed.

(** The theorem at a minimum head length of 20. *)
Lemma Arrow_zero_head_length_raises_witness :
  0 < 20
  /\ Arrow_init (0, 0) (3, 4) "triangle" 0 (1 / 10) (Some 20) (Some "black")
       "-" 1 1 = Raise ZeroDivisionError.
Proof.
  assert (H : 0 < 20) by lra.
  split; [exact H|].
  exact (Arrow_zero_head_length_raises (0, 0) (3, 4) "triangle" (1 / 10) 20
           (Some "black") "-" 1 1 H).
Defined.

Lemma Lines_init_fields points orientation line_color line_style line_width
    line_cap line_join opacity self :
  Lines_init points orientation line_color line_style line_width line_cap
    line_join opacity = Ok self ->
  Lines.points self = points /\ Lines.opacity self = opacity.
Proof.
  unfold Lines_init.
  destruct (bounding_fields points) as [[[[[a b] c] d] e]|]; [|discriminate].
  cbn [rbind]. intros [= <-]. cbn. auto.
Qed.

(** X21.  The head of an Arrow whose four head points are
    [a0, a1, a2, a3] (tip, corner, notch, corner): for "triangle" the
    closed path [a0, a1, a3], leaving the notch out; for "stroke" the open
    path [a1, a0, a3]; for "arrow" the closed path [a0, a1, a2, a3]. *)
Theorem Arrow_head_paths :
  forall (get_color : string -> result (R * R * R)) (self : Arrow.t)
         (a0 a1 a2 a3 : point),
    Arrow.arrow_head_points self = [a0; a1; a2; a3] ->
    let head := filter is_path (calls (Arrow_draw_head get_color self)) in
    (Arrow.head_style self = "triangle" ->
       head = [ move_to (fst a0) (snd a0); line_to (fst a1) (snd a1);
                line_to (fst a3) (snd a3); close_path ])
    /\ (Arrow.head_style self = "stroke" ->
        head = [ move_to (fst a1) (snd a1); line_to (fst a0) (snd a0);
                 line_to (fst a3) (snd a3) ])
    /\ (Arrow.head_style self = "arrow" ->
        head = [ move_to (fst a0) (snd a0); line_to (fst a1) (snd a1);
                 line_to (fst a2) (snd a2); line_to (fst a3) (snd a3);
                 close_path ]).
Proof.
  intros get_color self a0 a1 a2 a3 Hpts head. unfold head.
  split; [|split]; intros Hs; unfold Arrow_draw_head; rewrite Hs, Hpts;
    cbn [String.eqb Ascii.eqb Bool.eqb andb np_mask List.length Nat.eqb
         combine filter snd map fst index nth_error lift].
  - rewrite bind_lift_Ok.
    destruct (Polygon_init_ok a0 [a1; a3] 0 (Arrow.line_color self)
                (Arrow.line_color self) "-" (Arrow.line_width self) "butt"
                "bevel" (Arrow.opacity self)) as (g & -> & Hg & _).
    rewrite bind_lift_Ok. now rewrite (Polygon_draw_path _ _ _ _ Hg).
  - rewrite !bind_lift_Ok.
    destruct (Lines_init_ok a1 [a0; a3] 0 (Arrow.line_color self)
                (Arrow.line_style self) (Arrow.line_width self) "butt"
                "bevel" 1) as (g & -> & Hg & _).
    rewrite bind_lift_Ok. now rewrite (Lines_draw_path _ _ _ _ Hg).
  - destruct (Polygon_init_ok a0 [a1; a2; a3] 0 (Arrow.line_color self)
                (Arrow.line_color self) "-" (Arrow.line_width self) "butt"
                "bevel" (Arrow.opacity self)) as (g & -> & Hg & _).
    rewrite bind_lift_Ok. now rewrite (Polygon_draw_path _ _ _ _ Hg).
Qed.

(** The theorem at a constructed triangle-headed arrow. *)
Lemma Arrow_head_paths_witness :
  exists self a0 a1 a2 a3,
    Arrow_init (0, 0) (3, 4) "triangle" (1 / 10) (1 / 10) None (Some "black")
      "-" 1 1 = Ok self
    /\ Arrow.arrow_head_points self = [a0; a1; a2; a3]
    /\ filter is_path (calls (Arrow_draw_head sample_colors self))
       = [ move_to (fst a0) (snd a0); line_to (fst a1) (snd a1);
           line_to (fst a3) (snd a3); close_path ].
Proof.
  do 5 eexists. split; [reflexivity|].
  match goal with
  | |- ?P /\ _ => assert (Hp : P) by reflexivity
  end.
  split; [exact Hp|].
  exact (proj1 (Arrow_head_paths sample_colors _ _ _ _ _ Hp) eq_refl).
Defined.

Lemma paint_paths_alpha get_color fill_color line_color line_width line_style
    line_cap line_join opacity r g b a :
  In (set_source_rgba r g b a)
     (calls (paint_paths get_color fill_color line_color line_width
               line_style line_cap line_join opacity)) ->
  a = opacity.
Proof.
  unfold paint_paths, set_source.
  destruct (style_error line_style line_cap line_join); [intros []|].
  destruct fill_color as [f|], line_color as [l|];
    try destruct (get_color f) as [[[fr fg] fb]|ef];
    try destruct (get_color l) as [[[lr lg] lb]|el];
    try destruct (getitem LINE_STYLES line_style) as [pat|e1];
    try destruct (str_in line_style ["."; "-."]);
    try destruct (getitem LINE_CAPS line_cap) as [cap|e2];
    try destruct (getitem LINE_CAPS "round") as [cap'|e2'];
    try destruct (getitem LINE_JOINS line_join) as [join|e3];
    cbn; intros H;
    repeat (destruct H as [H | H]; [try discriminate; try congruence|]);
    try contradiction.
Qed.

Lemma Lines_draw_alpha get_color self r g b a :
  In (set_source_rgba r g b a) (calls (Lines_draw get_color self)) ->
  a = Lines.opacity self.
Proof.
  unfold Lines_draw, save_and_rotate.
  pose proof (paint_paths_alpha get_color None (Lines.line_color self)
                (Lines.line_width self) (Lines.line_style self)
                (Lines.line_cap self) (Lines.line_join self)
                (Lines.opacity self) r g b a) as Hp.
  destruct (Lines.points self) as [|p ps].
  - rewrite trace_points_nil. cbn. intros [H | [H | []]]; discriminate.
  - rewrite trace_points_cons.
    destruct (paint_paths get_color None _ _ _ _ _ _) as [tp [[]|e]];
      cbn [calls fst] in Hp; cbn; intros H;
      repeat (destruct H as [H | H]; [discriminate|]);
      repeat (apply in_app_or in H; destruct H as [H | H]);
      try (apply in_map_iff in H; destruct H as (q & Hq & _); discriminate);
      try (now apply Hp);
      try (destruct H as [H | []]; discriminate).
Qed.

Lemma Polygon_draw_alpha get_color self r g b a :
  In (set_source_rgba r g b a) (calls (Polygon_draw get_color self)) ->
  a = Polygon.opacity self.
Proof.
  unfold Polygon_draw, save_and_rotate.
  pose proof (paint_paths_alpha get_color (Polygon.fill_color self)
                (Polygon.line_color self)
                (Polygon.line_width self) (Polygon.line_style self)
                (Polygon.line_cap self) (Polygon.line_join self)
                (Polygon.opacity self) r g b a) as Hp.
  destruct (Polygon.points self) as [|p ps].
  - rewrite trace_points_nil. cbn. intros [H | [H | []]]; discriminate.
  - rewrite trace_points_cons.
    destruct (paint_paths get_color _ _ _ _ _ _ _) as [tp [[]|e]];
      cbn [calls fst] in Hp; cbn; intros H;
      repeat (destruct H as [H | H]; [discriminate|]);
      repeat (apply in_app_or in H; destruct H as [H | H]);
      try (apply in_map_iff in H; destruct H as (q & Hq & _); discriminate);
      try (now apply Hp);
      repeat (destruct H as [H | H]; [discriminate|]);
      try contradiction;
      repeat (apply in_app_or in H; destruct H as [H | H]);
      try (now apply Hp);
      try (destruct H as [H | []]; discriminate).
Qed.

(** X22.  The "stroke" head is painted fully opaque: every colour it sets
    has alpha 1, whatever the Arrow's [opacity], because the Lines it
    builds is not given the opacity; the "triangle" and "arrow" heads use
    the Arrow's opacity. *)
Theorem Arrow_stroke_head_ignores_opacity :
  forall (get_color : string -> result (R * R * R)) (self : Arrow.t)
         (r g b a : R),
    In (set_source_rgba r g b a) (calls (Arrow_draw_head get_color self)) ->
    (Arrow.head_style self = "stroke" -> a = 1)
    /\ (Arrow.head_style self = "triangle" \/ Arrow.head_style self = "arrow"
        -> a = Arrow.opacity self).
Proof.
  intros get_color self r g b a Hin. split.
  - intros Hs. revert Hin. unfold Arrow_draw_head. rewrite Hs.
    cbn [String.eqb Ascii.eqb Bool.eqb andb].
    destruct (index _ 1) as [p1|e]; [rewrite bind_lift_Ok | intros []].
    destruct (index _ 0) as [p0|e]; [rewrite bind_lift_Ok | intros []].
    destruct (index _ 3) as [p3|e]; [rewrite bind_lift_Ok | intros []].
    destruct (Lines_init _ _ _ _ _ _ _ _) as [lines|e] eqn:E;
      [rewrite bind_lift_Ok | intros []].
    intros H. apply Lines_draw_alpha in H.
    apply Lines_init_fields in E. destruct E as [_ Ho]. congruence.
  - intros Hs. revert Hin. unfold Arrow_draw_head.
    destruct Hs as [Hs | Hs]; rewrite Hs;
      cbn [String.eqb Ascii.eqb Bool.eqb andb].
    + destruct (np_mask _ _) as [points|e];
        [rewrite bind_lift_Ok | intros []].
      destruct (Polygon_init _ _ _ _ _ _ _ _ _) as [polygon|e] eqn:E;
        [rewrite bind_lift_Ok | intros []].
      intros H. apply Polygon_draw_alpha in H.
      apply Polygon_init_orientation in E.
      destruct E as (_ & _ & _ & _ & _ & Ho). congruence.
    + destruct (Polygon_init _ _ _ _ _ _ _ _ _) as [polygon|e] eqn:E;
        [rewrite bind_lift_Ok | intros []].
      intros H. apply Polygon_draw_alpha in H.
      apply Polygon_init_orientation in E.
      destruct E as (_ & _ & _ & _ & _ & Ho). congruence.
Qed.

(** The theorem at a half-transparent arrow with a "stroke" head. *)
Lemma Arrow_stroke_head_ignores_opacity_witness :
  exists self,
    Arrow_init (0, 0) (3, 4) "stroke" (1 / 10) (1 / 10) None (Some "black")
      "-" 1 (1 / 2) = Ok self
    /\ In (set_source_rgba 0 0 0 1)
          (calls (Arrow_draw_head sample_colors self))
    /\ ~ In (set_source_rgba 0 0 0 (1 / 2))
           (calls (Arrow_draw_head sample_colors self)).
Proof.
  eexists. split; [reflexivity|]. split.
  - cbn. do 5 right. left. reflexivity.
  - intros H.
    apply (Arrow_stroke_head_ignores_opacity sample_colors) in H.
    destruct H as [H _]. specialize (H eq_refl). lra.
Defined.

(* ====================================================================== *)
(** * Further properties: constructors *)

(** X23.  [RegularPolygon] and [Star] cannot be built with zero faces or
    points: the step [2*pi / 0] raises [ZeroDivisionError]. *)
Theorem zero_faces_raise :
  (forall radius position orientation fill_color line_color line_style
          line_width line_cap line_join opacity,
      RegularPolygon_init 0 radius position orientation fill_color line_color
        line_style line_width line_cap line_join opacity
      = Raise ZeroDivisionError)
  /\ (forall external_radius internal_radius position orientation fill_color
             line_color line_style line_width line_cap line_join opacity,
      Star_init 0 external_radius internal_radius position orientation
        fill_color line_color line_style line_width line_cap line_join
        opacity = Raise ZeroDivisionError).
Proof.
  split; intros.
  - apply RegularPolygon_init_zero.
  - apply Star_init_zero.
Qed.

Lemma is_max_unique (l : list R) (m m' : R) :
  is_max m l -> is_max m' l -> m = m'.
Proof. intros [H1 H2] [H1' H2']. apply Rle_antisym; auto. Qed.

Lemma is_min_unique (l : list R) (m m' : R) :
  is_min m l -> is_min m' l -> m = m'.
Proof. intros [H1 H2] [H1' H2']. apply Rle_antisym; auto. Qed.

Lemma is_max_shift (l : list R) (m d : R) :
  is_max m l -> is_max (m + d) (map (fun x => x + d) l).
Proof.
  intros [H1 H2]. split.
  - apply in_map_iff. now exists m.
  - intros y Hy. apply in_map_iff in Hy. destruct Hy as (x & <- & Hx).
    specialize (H2 x Hx). lra.
Qed.

Lemma is_min_shift (l : list R) (m d : R) :
  is_min m l -> is_min (m + d) (map (fun x => x + d) l).
Proof.
  intros [H1 H2]. split.
  - apply in_map_iff. now exists m.
  - intros y Hy. apply in_map_iff in Hy. destruct Hy as (x & <- & Hx).
    specialize (H2 x Hx). lra.
Qed.

Lemma bounding_fields_shift (p : point) (ps : list point) (d : point) :
  exists max_x min_x max_y min_y,
    bounding_fields (p :: ps)
    = Ok (max_x, min_x, max_y, min_y, half_span max_x min_x max_y min_y)
    /\ bounding_fields (map (fun q => vadd q d) (p :: ps))
       = Ok (max_x + fst d, min_x + fst d, max_y + snd d, min_y + snd d,
             half_span max_x min_x max_y min_y)
    /\ min_x <= max_x /\ min_y <= max_y.
Proof.
  destruct (bounding_fields_ok p ps) as (a & b & c & e & E & Hbox).
  destruct (bounding_fields_ok (vadd p d) (map (fun q => vadd q d) ps))
    as (a' & b' & c' & e' & E' & Hbox').
  exists a, b, c, e. split; [exact E|].
  destruct Hbox as (Ha & Hb & Hc & He).
  destruct Hbox' as (Ha' & Hb' & Hc' & He').
  assert (Hx : map fst (vadd p d :: map (fun q => vadd q d) ps)
               = map (fun x => x + fst d) (map fst (p :: ps))).
  { cbn [map]. rewrite !map_map. reflexivity. }
  assert (Hy : map snd (vadd p d :: map (fun q => vadd q d) ps)
               = map (fun x => x + snd d) (map snd (p :: ps))).
  { cbn [map]. rewrite !map_map. reflexivity. }
  rewrite Hx in Ha', Hb'. rewrite Hy in Hc', He'.
  apply (is_max_unique _ _ _ (is_max_shift _ _ (fst d) Ha)) in Ha'.
  apply (is_min_unique _ _ _ (is_min_shift _ _ (fst d) Hb)) in Hb'.
  apply (is_max_unique _ _ _ (is_max_shift _ _ (snd d) Hc)) in Hc'.
  apply (is_min_unique _ _ _ (is_min_shift _ _ (snd d) He)) in He'.
  subst a' b' c' e'. cbn [map]. rewrite E'.
  split.
  - do 2 f_equal. unfold half_span. f_equal; field.
  - destruct Ha as [Ha _], Hb as [_ Hb], Hc as [Hc _], He as [_ He].
    split; [now apply Hb | now apply He].
Qed.

(** X24.  The pivot that [Lines] and [Polygon] store does not follow the
    shape: translating every point by the same offset leaves [position]
    unchanged, and its coordinates are never negative. *)
Theorem stored_pivot_ignores_translation :
  forall (p : point) (ps : list point) (d : point) orientation fill_color
         line_color line_style line_width line_cap line_join opacity,
    (exists l l',
        Lines_init (p :: ps) orientation line_color line_style line_width
          line_cap line_join opacity = Ok l
        /\ Lines_init (map (fun q => vadd q d) (p :: ps)) orientation
             line_color line_style line_width line_cap line_join opacity
           = Ok l'
        /\ Lines.position l' = Lines.position l
        /\ 0 <= fst (Lines.position l) /\ 0 <= snd (Lines.position l))
    /\ (exists g g',
        Polygon_init (p :: ps) orientation fill_color line_color line_style
          line_width line_cap line_join opacity = Ok g
        /\ Polygon_init (map (fun q => vadd q d) (p :: ps)) orientation
             fill_color line_color line_style line_width line_cap line_join
             opacity = Ok g'
        /\ Polygon.position g' = Polygon.position g
        /\ 0 <= fst (Polygon.position g) /\ 0 <= snd (Polygon.position g)).
Proof.
  intros.
  destruct (bounding_fields_shift p ps d)
    as (a & b & c & e & E & E' & Hx & Hy).
  split.
  - unfold Lines_init. rewrite E, E'. cbn [rbind].
    do 2 eexists. split; [reflexivity|]. split; [reflexivity|].
    cbn [Lines.position half_span fst snd].
    split; [reflexivity|]. split; lra.
  - unfold Polygon_init. rewrite E, E'. cbn [rbind].
    do 2 eexists. split; [reflexivity|]. split; [reflexivity|].
    cbn [Polygon.position half_span fst snd].
    split; [reflexivity|]. split; lra.
Qed.



(* ====================================================================== *)
(** * Further properties: the angle arrays in binary64 arithmetic *)

Lemma binary64_counts_below_61 (k : nat) :
  (k < 60)%nat ->
  binary64.n_angles (Z.of_nat (S k)) = Some (Z.of_nat (S k))
  /\ binary64.n_internal_angles (Z.of_nat (S k)) = Some (Z.of_nat (S k)).
Proof.
  intros H.
  do 60 (destruct k as [|k]; [split; vm_compute; reflexivity|]).
  lia.
Qed.

(** X26.  In binary64 arithmetic the angle arrays have the intended
    length for every count from 1 to 60: [RegularPolygon] gets [n_faces]
    angles, and [Star] gets [n_points] external and [n_points] internal
    angles; 61 is the first count for which this fails. *)
Theorem binary64_counts_are_right_up_to_60 :
  forall n : Z,
    (1 <= n <= 60)%Z ->
    binary64.n_angles n = Some n
    /\ binary64.n_internal_angles n = Some n.
Proof.
  intros n Hn.
  replace n with (Z.of_nat (S (Z.to_nat (n - 1)))) by lia.
  apply binary64_counts_below_61. lia.
Qed.

(** The theorem at the counts the test suite uses. *)
Lemma binary64_counts_are_right_up_to_60_witness :
  (1 <= 5 <= 60)%Z
  /\ binary64.n_angles 5 = Some 5%Z
  /\ binary64.n_internal_angles 5 = Some 5%Z.
Proof.
  assert (H : (1 <= 5 <= 60)%Z) by lia.
  split; [exact H|].
  exact (binary64_counts_are_right_up_to_60 5 H).
Defined.

(* ====================================================================== *)
(** * Further properties: a regular polygon under its own rotation *)




